(** * YoutubeVideoAudioDownloader: a shallow embedding of
      [src/youtube_downolader.py] and the properties of its batch loop,
      its file naming and its transcoder invocation.

    Strings are Rocq strings read as sequences of code points below 256;
    Python's character classes are the ones [str] has on that range.
    The program's collaborators (the [validators] and [pytube] packages,
    the clock, the file system and the ffmpeg child process) are inputs
    of the model, gathered in the record [env]. *)

From Stdlib Require Import ZArith Ascii String List Bool Lia.
From stdpp Require Import base decidable option list gmap strings sets.

Local Open Scope string_scope.
Local Open Scope nat_scope.
Local Open Scope list_scope.

(** ** Characters *)

Definition code (c : ascii) : nat := nat_of_ascii c.

(** The double quote, written by its code point. *)
Definition dquote : ascii := ascii_of_nat 34.
Definition squote : ascii := "'"%char.
Definition backslash : ascii := "\"%char.

(** [str.isspace] on the code points below 256. *)
Definition isspace (c : ascii) : bool :=
  let n := code c in
  ((9 <=? n) && (n <=? 13)) || ((28 <=? n) && (n <=? 32))
  || (n =? 133) || (n =? 160).

(** [str.isdigit] on the code points below 256: the decimal digits and
    the three superscript digits. *)
Definition isdigit (c : ascii) : bool :=
  let n := code c in
  ((48 <=? n) && (n <=? 57)) || (n =? 178) || (n =? 179) || (n =? 185).

(** The decimal digits, the only characters [int] reads as a digit here. *)
Definition isdecimal (c : ascii) : bool :=
  let n := code c in (48 <=? n) && (n <=? 57).

(** [str.isprintable] on the code points below 256. *)
Definition isprintable (c : ascii) : bool :=
  let n := code c in
  (32 <=? n) && negb ((127 <=? n) && (n <=? 160)) && negb (n =? 173).

(** ** Python string operations used by the program *)

Definition str1 (c : ascii) : string := String c EmptyString.

Fixpoint str_filter (p : ascii -> bool) (s : string) : string :=
  match s with
  | EmptyString => EmptyString
  | String c r => if p c then String c (str_filter p r) else str_filter p r
  end.

Fixpoint str_map (f : ascii -> ascii) (s : string) : string :=
  match s with
  | EmptyString => EmptyString
  | String c r => String (f c) (str_map f r)
  end.

Fixpoint str_forall (p : ascii -> bool) (s : string) : bool :=
  match s with
  | EmptyString => true
  | String c r => p c && str_forall p r
  end.

Fixpoint str_mem (a : ascii) (s : string) : bool :=
  match s with
  | EmptyString => false
  | String c r => Ascii.eqb a c || str_mem a r
  end.

(** [s.replace(old, new)] for one-character [old] and [new]. *)
Definition replace_char (old new : ascii) (s : string) : string :=
  str_map (fun c => if Ascii.eqb c old then new else c) s.

Fixpoint lstrip (s : string) : string :=
  match s with
  | EmptyString => EmptyString
  | String c r => if isspace c then lstrip r else s
  end.

Fixpoint rstrip (s : string) : string :=
  match s with
  | EmptyString => EmptyString
  | String c r =>
      match rstrip r with
      | EmptyString => if isspace c then EmptyString else str1 c
      | r' => String c r'
      end
  end.

(** [s.strip()] *)
Definition strip (s : string) : string := rstrip (lstrip s).

(** [s.split(sep)] for a one-character separator: every occurrence of
    the separator ends a token, empty tokens are kept, and the result of
    splitting the empty string is the list holding the empty string. *)
Fixpoint split (sep : ascii) (s : string) : list string :=
  match s with
  | EmptyString => [EmptyString]
  | String c r =>
      if Ascii.eqb c sep then EmptyString :: split sep r
      else match split sep r with
           | t :: ts => String c t :: ts
           | [] => [str1 c]
           end
  end.

(** [sep.join(l)] *)
Fixpoint join (sep : string) (l : list string) : string :=
  match l with
  | [] => EmptyString
  | [x] => x
  | x :: r => x +:+ sep +:+ join sep r
  end.

Definition hex_digit (n : nat) : ascii :=
  if n <? 10 then ascii_of_nat (48 + n) else ascii_of_nat (87 + n).

(** The escape [\xhh] of a code point below 256. *)
Definition hex_escape (c : ascii) : string :=
  String backslash (String "x"%char
    (String (hex_digit (code c / 16)) (str1 (hex_digit (code c mod 16))))).

(** [repr] of a [str] picks the double quote when the string holds a
    single quote and no double quote, the single quote otherwise. *)
Definition repr_quote (s : string) : ascii :=
  if str_mem squote s && negb (str_mem dquote s) then dquote else squote.

Definition repr_char (q c : ascii) : string :=
  if Ascii.eqb c q || Ascii.eqb c backslash then String backslash (str1 c)
  else if code c =? 9 then "\t"
  else if code c =? 10 then "\n"
  else if code c =? 13 then "\r"
  else if isprintable c then str1 c
  else hex_escape c.

Fixpoint repr_body (q : ascii) (s : string) : string :=
  match s with
  | EmptyString => EmptyString
  | String c r => repr_char q c +:+ repr_body q r
  end.

(** [repr(s)] for a [str]. *)
Definition repr_str (s : string) : string :=
  let q := repr_quote s in
  String q (repr_body q s +:+ str1 q).

(** [str(l)] for a list of [str]. *)
Definition str_of_list (l : list string) : string :=
  "[" +:+ join ", " (map repr_str l) +:+ "]".

(** ** Exceptions *)

(** Every exception the modelled calls raise is an instance of
    [Exception]; the class is kept for the record. *)
Inductive exn_class : Type :=
  | IndexError | AttributeError | TypeError | FileNotFoundError
  | UnicodeDecodeError | ExternalError.

Record exn : Type := Exn { exn_cls : exn_class; exn_msg : string }.

Inductive result (A : Type) : Type :=
  | Ok (a : A)
  | Raise (x : exn).
Arguments Ok {A} a.
Arguments Raise {A} x.

Definition rbind {A B} (r : result A) (k : A -> result B) : result B :=
  match r with
  | Ok a => k a
  | Raise x => Raise x
  end.

Declare Scope result_scope.
Delimit Scope result_scope with result.
Notation "x <~ r ; k" := (rbind r (fun x => k))
  (at level 20, r at level 100, k at level 200) : result_scope.

(** ** The variable [url] of the batch loop

    The loop first binds [url] to the list of tokens and, on the
    audio-only path, rebinds it to a single token: a value that is a
    list or a [str]. *)
Inductive pyval : Type :=
  | PList (l : list string)
  | PStr (s : string).

(** [len(v)] *)
Definition py_len (v : pyval) : nat :=
  match v with
  | PList l => length l
  | PStr s => String.length s
  end.

(** [v[i]] for [i >= 0] *)
Definition py_getitem (v : pyval) (i : nat) : result string :=
  match v with
  | PList l =>
      match l !! i with
      | Some x => Ok x
      | None => Raise (Exn IndexError "list index out of range")
      end
  | PStr s =>
      match String.get i s with
      | Some c => Ok (str1 c)
      | None => Raise (Exn IndexError "string index out of range")
      end
  end.

(** The truth value of [v]. *)
Definition py_truthy (v : pyval) : bool := negb (py_len v =? 0).

(** [str(v)] *)
Definition py_str (v : pyval) : string :=
  match v with
  | PList l => str_of_list l
  | PStr s => s
  end.

(** ** The line classifier of [download_youtube_videos_from_file]
    (lines 43 to 64) *)

(** The four places that print the bad-line message and [continue]. *)
Inductive reject_site : Type :=
  | NoTokens        (* line 46 *)
  | TooManyTokens   (* line 50 *)
  | BadFlag         (* line 58 *)
  | BadUrl.         (* line 62 *)

(** What one iteration does after line 64: it has either printed the
    bad-line message, or it calls [download_from_youtube(str(url), _,
    audio_only)]. *)
Inductive decision : Type :=
  | Bad (site : reject_site)
  | Call (url : string) (audio_only : bool).

Section Classifier.

(** Truth value of [validators.url(s)]. *)
Variable valid_url : string -> bool.

Definition classify_line (line : string) : result decision :=
  (let audio_only := false in
   let url := PList (split " " (strip line)) in
   if negb (py_truthy url) then Ok (Bad NoTokens)
   else if 2 <? py_len url then Ok (Bad TooManyTokens)
   else
     c54 <~ (if py_len url =? 2
             then u1 <~ py_getitem url 1; Ok (valid_url u1)
             else Ok false);
     st <~ (if (c54 : bool)
            then u0 <~ py_getitem url 0;
                 if String.eqb u0 "a"
                 then u1 <~ py_getitem url 1; Ok (Some (true, PStr u1))
                 else Ok None
            else Ok (Some (audio_only, url)));
     match st with
     | None => Ok (Bad BadFlag)
     | Some (audio_only, url) =>
         c62 <~ (if py_len url =? 1
                 then u0 <~ py_getitem url 0; Ok (negb (valid_url u0))
                 else Ok false);
         if (c62 : bool) then Ok (Bad BadUrl)
         else Ok (Call (py_str url) audio_only)
     end)%result.

End Classifier.

(** A stand-in for [validators.url] used in the worked examples: a
    scheme prefix followed by more text, without white space. *)
Definition sample_valid_url (s : string) : bool :=
  (String.prefix "https://" s || String.prefix "http://" s)
  && (8 <? String.length s)
  && str_forall (fun c => negb (isspace c)) s.

Definition nl : string := str1 (ascii_of_nat 10).
Definition tab : string := str1 (ascii_of_nat 9).

(** ** The clock *)

Record datetime : Type := Datetime {
  year : nat; month : nat; day : nat;
  hour : nat; minute : nat; second : nat
}.

Definition digit (n : nat) : ascii := ascii_of_nat (48 + n mod 10).

Definition pad2 (n : nat) : string :=
  String (digit (n / 10)) (str1 (digit n)).

Definition pad4 (n : nat) : string :=
  String (digit (n / 1000)) (String (digit (n / 100)) (pad2 n)).

(** [dt.strftime("%Y-%m-%d_%H-%M-%S")]: the year on four digits, every
    other field on two, for fields within the ranges of [datetime] (a
    reading of the clock never has a year below 1000, which some
    platforms print on fewer digits). *)
Definition strftime (dt : datetime) : string :=
  pad4 (year dt) +:+ "-" +:+ pad2 (month dt) +:+ "-" +:+ pad2 (day dt)
  +:+ "_" +:+ pad2 (hour dt) +:+ "-" +:+ pad2 (minute dt)
  +:+ "-" +:+ pad2 (second dt).

(** The ranges the fields of a [datetime] object lie in. *)
Definition datetime_ok (dt : datetime) : Prop :=
  (1 <= Z.of_nat (year dt) <= 9999)%Z
  /\ 1 <= month dt <= 12 /\ 1 <= day dt <= 31
  /\ hour dt <= 23 /\ minute dt <= 59 /\ second dt <= 59.

(** ** The remote catalogue: [pytube]'s streams *)

(** Modelled from the spec: the [Stream] objects of [pytube], an external
    library that is not part of the sources; the attributes the program
    and [StreamQuery] read, and the outcome of [download]. *)
Record Stream : Type := {
  includes_audio_track : bool;
  includes_video_track : bool;
  abr : option string;
  resolution : option string;
  (** what [download] raises, if anything *)
  download_raises : option exn
}.

(** Modelled from the spec: the streams [filter(only_audio=True)] of
    [pytube] keeps, those with an audio track and no video track. *)
Definition only_audio (s : Stream) : bool :=
  includes_audio_track s && negb (includes_video_track s).

(** Modelled from the spec: the streams [filter(only_video=True)] of
    [pytube] keeps, those with a video track and no audio track. *)
Definition only_video (s : Stream) : bool :=
  includes_video_track s && negb (includes_audio_track s).

(** [int(s)] for a string made of [isdigit] characters: a [ValueError]
    ([None]) when the string is empty or holds a superscript digit. *)
Fixpoint int_acc (acc : N) (s : string) : option N :=
  match s with
  | EmptyString => Some acc
  | String c r =>
      if isdecimal c
      then int_acc (10 * acc + N.of_nat (code c - 48))%N r
      else None
  end.

Definition py_int (s : string) : option N :=
  match s with
  | EmptyString => None
  | _ => int_acc 0%N s
  end.

(** [''.join(filter(str.isdigit, s))] *)
Definition digits_of (s : string) : string := str_filter isdigit s.

(** [sorted(l, key=...)] with the comparison [le] of the keys: a stable
    sort, equal elements stay in their order. *)
Fixpoint insert_by {A} (le : A -> A -> bool) (x : A) (l : list A) : list A :=
  match l with
  | [] => [x]
  | y :: r => if le x y then x :: l else y :: insert_by le x r
  end.

Definition sorted_by {A} (le : A -> A -> bool) (l : list A) : list A :=
  foldr (insert_by le) [] l.

Definition attr_str (attr : Stream -> option string) (s : Stream) : string :=
  default EmptyString (attr s).

(** The integer a stream is ranked by under [order_by]. *)
Definition int_key (attr : Stream -> option string) (s : Stream) : option N :=
  py_int (digits_of (attr_str attr s)).

(** Modelled from the spec: [pytube]'s [StreamQuery] is an external
    library that is not part of the sources. [order_by(attribute)] keeps
    the streams whose attribute is not [None] and sorts them in
    ascending order of the integer made of the digits of the attribute;
    when one attribute has no such integer it sorts by the attribute
    strings themselves. *)
Definition order_by (attr : Stream -> option string) (q : list Stream)
    : list Stream :=
  let has_attribute := List.filter (fun s => bool_decide (is_Some (attr s))) q in
  if forallb (fun s => bool_decide (is_Some (int_key attr s))) has_attribute
  then sorted_by (fun s t => N.leb (default 0%N (int_key attr s))
                                   (default 0%N (int_key attr t)))
                 has_attribute
  else sorted_by (fun s t => String.leb (attr_str attr s) (attr_str attr t))
                 has_attribute.

(** Modelled from the spec: [desc()] of [pytube]'s [StreamQuery]
    reverses the query. *)
Definition desc (q : list Stream) : list Stream := reverse q.

(** Modelled from the spec: [first()] of [pytube]'s [StreamQuery] is the
    first stream of the query, or [None] when it is empty. *)
Definition first (q : list Stream) : option Stream := head q.

(** Modelled from the spec: a [YouTube] object of [pytube]; its two
    properties are fetched from the network when read, and either may
    raise. *)
Record YouTubeObj : Type := {
  title : result string;
  streams : result (list Stream)
}.

(** The ffmpeg child process as the program sees it: the lines the
    text-mode pipe of its merged output yields, the exception that
    reading the pipe raises after them, if any (a [UnicodeDecodeError]
    when the output cannot be decoded), and its exit status. The process
    leaves the temporary files of the working directory in place. *)
Record process : Type := {
  proc_stdout : list string;
  proc_stdout_error : option exn;
  returncode : Z
}.

(** The input file as the program sees it, once opened: the lines its
    iterator yields, and the exception the iterator raises after them,
    if any (a [UnicodeDecodeError] on bytes that cannot be decoded, an
    [OSError] of the device). *)
Record text_file : Type := {
  file_lines : list string;
  file_error : option exn
}.

(** ** The environment and the observable state *)

Record env : Type := {
  (** truth value of [validators.url(s)] *)
  valid_url : string -> bool;
  (** [open(path, 'r')] *)
  open_file : string -> result text_file;
  (** the successive readings of [datetime.now()] *)
  now : nat -> datetime;
  (** [YouTube(url)] *)
  YouTube : string -> result YouTubeObj;
  (** [subprocess.Popen(command, ...)] *)
  Popen : list string -> result process
}.

Inductive event : Type :=
  | EvBadLine (site : reject_site) (line : string) (* print(bad_line_message) *)
  | EvPrint (text : string)                         (* any other print *)
  | EvCaught (x : exn)                              (* print(e), line 69 *)
  | EvTiming (fname : string)                       (* line 22 *)
  | EvDownload (filename : string)                  (* stream.download *)
  | EvSpawn (command : list string)                 (* subprocess.Popen *)
  | EvRemove (filename : string).                   (* os.remove *)

(** The files of the working directory, the number of clock readings
    taken so far, and what has happened so far, oldest first. *)
Record world : Type := World {
  files : gset string;
  ticks : nat;
  log : list event
}.

(** Reading a file to its end: the lines of the file, or the exception
    that [open] or the iterator raises. *)
Definition open_lines (e : env) (path : string) : result (list string) :=
  match open_file e path with
  | Ok f => match file_error f with
            | None => Ok (file_lines f)
            | Some x => Raise x
            end
  | Raise x => Raise x
  end.

(** ** Computations that change the world and may raise *)

Definition M (A : Type) : Type := world -> result A * world.

Definition ret {A} (a : A) : M A := fun w => (Ok a, w).

Definition raise {A} (x : exn) : M A := fun w => (Raise x, w).

Definition bind {A B} (m : M A) (k : A -> M B) : M B :=
  fun w => match m w with
           | (Ok a, w') => k a w'
           | (Raise x, w') => (Raise x, w')
           end.

Definition lift {A} (r : result A) : M A := fun w => (r, w).

(** [try: m except Exception as e: handler e] *)
Definition try_except {A} (m : M A) (handler : exn -> M A) : M A :=
  fun w => match m w with
           | (Ok a, w') => (Ok a, w')
           | (Raise x, w') => handler x w'
           end.

Declare Scope M_scope.
Delimit Scope M_scope with M.
Notation "x <- m ; k" := (bind m (fun x => k))
  (at level 20, m at level 100, k at level 200) : M_scope.
Notation "m ;; k" := (bind m (fun _ => k))
  (at level 100, k at level 200, right associativity) : M_scope.

Definition emit (ev : event) : M unit :=
  fun w => (Ok tt, World (files w) (ticks w) (log w ++ [ev])).

(** [print(s)] *)
Definition print (s : string) : M unit := emit (EvPrint (s +:+ nl)).

(** [print(s, end='')] *)
Definition print_noend (s : string) : M unit := emit (EvPrint s).

(** [datetime.now()] *)
Definition datetime_now (e : env) : M datetime :=
  fun w => (Ok (now e (ticks w)), World (files w) (S (ticks w)) (log w)).

(** [stream.download(filename=f)]: the file is in the working directory
    when the call returns. *)
Definition download (s : Stream) (f : string) : M unit :=
  match download_raises s with
  | Some x => raise x
  | None =>
      fun w => (Ok tt, World ({[f]} ∪ files w) (ticks w) (log w ++ [EvDownload f]))
  end.

(** [os.remove(f)] *)
Definition os_remove (f : string) : M unit :=
  fun w =>
    if decide (f ∈ files w)
    then (Ok tt, World (files w ∖ {[f]}) (ticks w) (log w ++ [EvRemove f]))
    else (Raise (Exn FileNotFoundError
                   ("[Errno 2] No such file or directory: " +:+ repr_str f)), w).

(** [subprocess.Popen(command, ...)] *)
Definition popen (e : env) (command : list string) : M process :=
  (p <- lift (Popen e command);
   emit (EvSpawn command);;
   ret p)%M.

(** [for x in l: body x] *)
Fixpoint for_each {A} (l : list A) (body : A -> M unit) : M unit :=
  match l with
  | [] => ret tt
  | x :: r => (body x;; for_each r body)%M
  end.

(** [for x in it: body x] for an iterator that yields the elements of
    [l] and then raises [error], if any. *)
Definition for_each_of {A} (l : list A) (error : option exn)
    (body : A -> M unit) : M unit :=
  (for_each l body;;
   match error with
   | Some x => raise x
   | None => ret tt
   end)%M.

(** The attribute of [None] that lines 94 and 104 read. *)
Definition none_has_no (attribute : string) : exn :=
  Exn AttributeError
    ("'NoneType' object has no attribute '" +:+ attribute +:+ "'").

(** ** [download_from_youtube] (lines 73 to 127) *)

(** Line 90. *)
Definition sanitize_title (t : string) : string :=
  replace_char "/" "_" (replace_char " " "_" t).

(** Line 91. *)
Definition output_filename_of (video_title timestamp : string)
    (audio_only : bool) : string :=
  if negb audio_only
  then video_title +:+ "_" +:+ timestamp +:+ ".mkv"
  else video_title +:+ "_" +:+ timestamp +:+ ".mp3".

(** Line 94. *)
Definition audio_bitrate_of (abr_text : string) : string :=
  digits_of abr_text +:+ "k".

(** Lines 95 and 102. *)
Definition audio_filename_of (timestamp : string) : string :=
  "audio_" +:+ timestamp +:+ ".mp4".

Definition video_filename_of (timestamp : string) : string :=
  "video_" +:+ timestamp +:+ ".mp4".

(** Lines 107 to 111. *)
Definition mux_command (ffmpeg_path video_filename audio_filename
    audio_bitrate output_filename : string) : list string :=
  [ffmpeg_path; "-y"; "-i"; video_filename; "-i"; audio_filename;
   "-c:v"; "hevc_nvenc"; "-preset"; "fast"; "-profile:v"; "main";
   "-c:a"; "aac"; "-b:a"; audio_bitrate;
   output_filename].

(** Lines 119 to 121. *)
Definition audio_command (ffmpeg_path audio_filename audio_bitrate
    output_filename : string) : list string :=
  [ffmpeg_path; "-y"; "-i"; audio_filename; "-b:a"; audio_bitrate;
   output_filename].

(** Lines 113 to 115 and 123 to 125: start the child process and forward
    every line of its output, up to the end of the output or to the
    exception that reading it raises. The exit status of the process is
    never read. *)
Definition run_and_forward (e : env) (command : list string) : M unit :=
  (process <- popen e command;
   for_each_of (proc_stdout process) (proc_stdout_error process)
     print_noend)%M.

(** The body of [download_from_youtube], without its decorator. *)
Definition download_from_youtube_body (e : env) (url ffmpeg_path : string)
    (audio_only : bool) : M unit :=
  (print url;;
   dt <- datetime_now e;
   let timestamp := strftime dt in
   yt <- lift (YouTube e url);

   t <- lift (title yt);
   let video_title := sanitize_title t in
   let output_filename := output_filename_of video_title timestamp audio_only in

   q <- lift (streams yt);
   let audio_stream := first (desc (order_by abr (List.filter only_audio q))) in
   a <- match audio_stream with
        | Some a => ret a
        | None => raise (none_has_no "abr")
        end;
   abr_text <- match abr a with
               | Some s => ret s
               | None => raise (Exn TypeError "'NoneType' object is not iterable")
               end;
   let audio_bitrate := audio_bitrate_of abr_text in
   let audio_filename := audio_filename_of timestamp in
   print "Download audio start...";;
   download a audio_filename;;
   print "Done";;

   (if negb audio_only
    then
      q' <- lift (streams yt);
      let video_stream :=
        first (desc (order_by resolution (List.filter only_video q'))) in
      let video_filename := video_filename_of timestamp in
      print "Download video start...";;
      v <- match video_stream with
           | Some v => ret v
           | None => raise (none_has_no "download")
           end;
      download v video_filename;;
      print "Done";;
      run_and_forward e
        (mux_command ffmpeg_path video_filename audio_filename
           audio_bitrate output_filename);;
      os_remove video_filename
    else
      run_and_forward e
        (audio_command ffmpeg_path audio_filename audio_bitrate
           output_filename));;

   os_remove audio_filename)%M.

(** [timing_decorator]: the wrapped call, then the report of the time it
    took; nothing is printed when the call raises. *)
Definition timing_decorator {A} (fname : string) (m : M A) : M A :=
  (r <- m;
   emit (EvTiming fname);;
   ret r)%M.

Definition download_from_youtube (e : env) (url ffmpeg_path : string)
    (audio_only : bool) : M unit :=
  timing_decorator "download_from_youtube"
    (download_from_youtube_body e url ffmpeg_path audio_only).

(** ** [download_youtube_videos_from_file] (lines 28 to 69) *)

(** One iteration of the loop over the lines. *)
Definition loop_body (e : env) (ffmpeg_path line : string) : M unit :=
  (d <- lift (classify_line (valid_url e) line);
   match d with
   | Bad site => emit (EvBadLine site line)
   | Call url audio_only =>
       try_except (download_from_youtube e url ffmpeg_path audio_only)
                  (fun x => emit (EvCaught x))
   end)%M.

(** The file is read as the loop goes: an exception of the iterator is
    raised after the lines before it were processed, and outside the
    [try] of line 66. *)
Definition download_youtube_videos_from_file (e : env)
    (file_path ffmpeg_path : string) : M unit :=
  (file <- lift (open_file e file_path);
   for_each_of (file_lines file) (file_error file)
     (loop_body e ffmpeg_path))%M.

(** What the console shows for an event. The elapsed time of
    [EvTiming] is a floating-point number and is left out. *)
Definition console_text (ev : event) : option string :=
  match ev with
  | EvBadLine _ line => Some ("Bad line: " +:+ line +:+ nl)
  | EvPrint text => Some text
  | EvCaught x => Some (exn_msg x +:+ nl)
  | EvTiming fname => Some ("Process time: " +:+ fname +:+ ": ")
  | EvDownload _ | EvSpawn _ | EvRemove _ => None
  end.

(** ** A worked environment *)

Definition mk_audio (rate : string) : Stream :=
  {| includes_audio_track := true; includes_video_track := false;
     abr := Some rate; resolution := None; download_raises := None |}.

Definition mk_video (res : string) : Stream :=
  {| includes_audio_track := false; includes_video_track := true;
     abr := None; resolution := Some res; download_raises := None |}.

Definition mk_progressive (res rate : string) : Stream :=
  {| includes_audio_track := true; includes_video_track := true;
     abr := Some rate; resolution := Some res; download_raises := None |}.

Definition sample_streams : list Stream :=
  [mk_progressive "360p" "96kbps"; mk_video "720p"; mk_video "1080p";
   mk_video "480p"; mk_audio "96kbps"; mk_audio "160kbps";
   mk_audio "128kbps"].

Definition sample_video : YouTubeObj :=
  {| title := Ok "My clip 1/2"; streams := Ok sample_streams |}.

Definition sample_clock (n : nat) : datetime :=
  Datetime 2024 3 9 21 5 (7 + n).

(** A transcoder that prints two lines and exits with status [status]. *)
Definition sample_env (status : Z) (clock : nat -> datetime)
    (lines : list string) : env :=
  {| valid_url := sample_valid_url;
     open_file := fun _ => Ok {| file_lines := lines; file_error := None |};
     now := clock;
     YouTube := fun _ => Ok sample_video;
     Popen := fun _ => Ok {| proc_stdout := ["frame=1" +:+ nl; "done" +:+ nl];
                             proc_stdout_error := None;
                             returncode := status |} |}.

Definition empty_world : world := World ∅ 0 [].

(** ** Notions the statements below use *)

(** The tokens of a line when it is split on runs of white space, as
    [line.split()] does: the reading of the specification, to be compared
    with the split on the single space that the program performs. *)
Fixpoint whitespace_fields (s : string) : list string :=
  match s with
  | EmptyString => [EmptyString]
  | String c r =>
      if isspace c then EmptyString :: whitespace_fields r
      else match whitespace_fields r with
           | t :: ts => String c t :: ts
           | [] => [str1 c]
           end
  end.

Definition whitespace_tokens (s : string) : list string :=
  List.filter (fun t => negb (String.eqb t EmptyString)) (whitespace_fields s).

(** The events that close the processing of one line: the bad-line
    message, the report of a job that returned, the message of a job
    that raised. *)
Definition is_outcome (ev : event) : bool :=
  match ev with
  | EvBadLine _ _ | EvCaught _ | EvTiming _ => true
  | _ => false
  end.

Definition outcomes (l : list event) : list event := List.filter is_outcome l.

(** The names of the temporary files written so far. *)
Definition downloads (l : list event) : list string :=
  omap (fun ev => match ev with EvDownload f => Some f | _ => None end) l.

(** The commands the transcoder was started with so far. *)
Definition spawns (l : list event) : list (list string) :=
  omap (fun ev => match ev with EvSpawn c => Some c | _ => None end) l.

(** What happened between two states of the world. *)
Definition new_events (w w' : world) : list event :=
  drop (length (log w)) (log w').

(** The command of a job, from the values its body computes. *)
Definition job_command (ffmpeg_path : string) (audio_only : bool)
    (timestamp video_title abr_text : string) : list string :=
  if negb audio_only
  then mux_command ffmpeg_path (video_filename_of timestamp)
         (audio_filename_of timestamp) (audio_bitrate_of abr_text)
         (output_filename_of video_title timestamp audio_only)
  else audio_command ffmpeg_path (audio_filename_of timestamp)
         (audio_bitrate_of abr_text)
         (output_filename_of video_title timestamp audio_only).

(** The temporary files of a job. *)
Definition temp_files (audio_only : bool) (timestamp : string) : gset string :=
  if negb audio_only
  then {[audio_filename_of timestamp; video_filename_of timestamp]}
  else {[audio_filename_of timestamp]}.

(** The names a job started at clock reading [i] may write. *)
Definition named_at (e : env) (i : nat) (f : string) : Prop :=
  f = audio_filename_of (strftime (now e i))
  \/ f = video_filename_of (strftime (now e i)).

(** The environment in which the transcoder exits with status [f s]
    wherever it exits with status [s] in [e]. *)
Definition with_exit_status (f : Z -> Z) (e : env) : env :=
  {| valid_url := valid_url e;
     open_file := open_file e;
     now := now e;
     YouTube := YouTube e;
     Popen := fun command =>
       match Popen e command with
       | Ok p => Ok {| proc_stdout := proc_stdout p;
                       proc_stdout_error := proc_stdout_error p;
                       returncode := f (returncode p) |}
       | Raise x => Raise x
       end |}.

(** Two computations that behave alike in every world. *)
Definition meq {A} (m1 m2 : M A) : Prop := forall w, m1 w = m2 w.

(** The last element of a list dominates the list. *)
Definition last_is_max {A} (key : A -> N) (l : list A) : Prop :=
  forall m, last l = Some m -> forall x, x ∈ l -> (key x <= key m)%N.

(** The numeric bitrate of an audio stream, when its [abr] has one. *)
Definition bitrate (s : Stream) : option N := int_key abr s.

(** The shape [YYYY-MM-DD_HH-MM-SS]. *)
Definition timestamp_shape (s : string) : bool :=
  match list_ascii_of_string s with
  | [y1; y2; y3; y4; h1; m1; m2; h2; d1; d2; u; H1; H2; h3; M1; M2; h4; S1; S2] =>
      forallb isdecimal [y1; y2; y3; y4; m1; m2; d1; d2; H1; H2; M1; M2; S1; S2]
      && forallb (Ascii.eqb "-"%char) [h1; h2; h3; h4]
      && Ascii.eqb u "_"%char
  | _ => false
  end.

(** The number a list of decimal digits stands for. *)
Definition number_of (l : list ascii) : nat :=
  fold_left (fun acc c => 10 * acc + (code c - 48)) l 0.

(** The date and time a text of the shape [YYYY-MM-DD_HH-MM-SS] stands
    for: the year, the month, the day, the hour, the minute and the
    second, each read off its decimal digits. This is the reading of the
    pattern of the specification, to be compared with what the program
    prints for a reading of the clock. *)
Definition timestamp_reading (s : string) : option datetime :=
  if timestamp_shape s
  then match list_ascii_of_string s with
       | [y1; y2; y3; y4; _; m1; m2; _; d1; d2; _; H1; H2; _; M1; M2; _; S1; S2] =>
           Some (Datetime (number_of [y1; y2; y3; y4]) (number_of [m1; m2])
                   (number_of [d1; d2]) (number_of [H1; H2])
                   (number_of [M1; M2]) (number_of [S1; S2]))
       | _ => None
       end
  else None.

(** The environment [e] in which every video that resolves has the
    title [t]. *)
Definition with_title (t : string) (e : env) : env :=
  {| valid_url := valid_url e;
     open_file := open_file e;
     now := now e;
     YouTube := fun url =>
       match YouTube e url with
       | Ok yt => Ok {| title := Ok t; streams := streams yt |}
       | Raise x => Raise x
       end;
     Popen := Popen e |}.

(** The environment [e] with a transcoder that cannot be started:
    [Popen] raises [x]. *)
Definition without_transcoder (x : exn) (e : env) : env :=
  {| valid_url := valid_url e;
     open_file := open_file e;
     now := now e;
     YouTube := YouTube e;
     Popen := fun _ => Raise x |}.

(** The environment [e] in which every video has the catalogue [q]. *)
Definition with_catalogue (q : list Stream) (e : env) : env :=
  {| valid_url := valid_url e;
     open_file := open_file e;
     now := now e;
     YouTube := fun _ => Ok {| title := Ok "My clip 1/2"; streams := Ok q |};
     Popen := Popen e |}.

(** The environment [e] in which reading the output of the transcoder
    raises [x] after the lines it yields. *)
Definition with_unreadable_output (x : exn) (e : env) : env :=
  {| valid_url := valid_url e;
     open_file := open_file e;
     now := now e;
     YouTube := YouTube e;
     Popen := fun command =>
       match Popen e command with
       | Ok p => Ok {| proc_stdout := proc_stdout p;
                       proc_stdout_error := Some x;
                       returncode := returncode p |}
       | Raise y => Raise y
       end |}.

(** What the text-mode pipe raises on a byte it cannot decode. *)
Definition undecodable : exn :=
  Exn UnicodeDecodeError
    "'charmap' codec can't decode byte 0x81 in position 5: character maps to <undefined>".

(** What [ffmpeg_path] raises when no such executable exists. *)
Definition no_such_executable : exn :=
  Exn FileNotFoundError "[Errno 2] No such file or directory: 'ffmpeg.exe'".

(** The names of the files deleted so far. *)
Definition removes (l : list event) : list string :=
  omap (fun ev => match ev with EvRemove f => Some f | _ => None end) l.

(** The bad-line messages printed so far: the place that printed each
    and the line it shows. *)
Definition bad_lines (l : list event) : list (reject_site * string) :=
  omap (fun ev => match ev with
                  | EvBadLine site line => Some (site, line)
                  | _ => None
                  end) l.

(** What the loop prints a bad-line message for. *)
Definition rejection_of (v : string -> bool) (line : string)
    : option (reject_site * string) :=
  match classify_line v line with
  | Ok (Bad site) => Some (site, line)
  | _ => None
  end.

(** Everything a job needs to go through: the video is resolved, its
    title and catalogue are read, an audio stream is chosen and
    downloads, a video stream too unless the job is audio-only, the
    transcoder starts and its output is read to the end. *)
Inductive job_ready (e : env) (url ffmpeg : string) (ao : bool) (ts : string)
    : string -> string -> process -> Prop :=
  | Ready yt t q a abr_text p :
      YouTube e url = Ok yt -> title yt = Ok t -> streams yt = Ok q ->
      first (desc (order_by abr (List.filter only_audio q))) = Some a ->
      abr a = Some abr_text ->
      download_raises a = None ->
      (ao = false ->
       exists v,
         first (desc (order_by resolution (List.filter only_video q))) = Some v
         /\ download_raises v = None) ->
      Popen e (job_command ffmpeg ao ts (sanitize_title t) abr_text) = Ok p ->
      proc_stdout_error p = None ->
      job_ready e url ffmpeg ao ts t abr_text p.

(** What the body of a job that goes through adds to the log, in order
    (lines 86, 96 to 98, 103 to 105, 113 to 117, 123 to 127). *)
Definition body_trace (url ffmpeg : string) (ao : bool)
    (ts t abr_text : string) (p : process) : list event :=
  [EvPrint (url +:+ nl); EvPrint ("Download audio start..." +:+ nl);
   EvDownload (audio_filename_of ts); EvPrint ("Done" +:+ nl)]
  ++ (if ao then []
      else [EvPrint ("Download video start..." +:+ nl);
            EvDownload (video_filename_of ts); EvPrint ("Done" +:+ nl)])
  ++ [EvSpawn (job_command ffmpeg ao ts (sanitize_title t) abr_text)]
  ++ map EvPrint (proc_stdout p)
  ++ (if ao then [] else [EvRemove (video_filename_of ts)])
  ++ [EvRemove (audio_filename_of ts)].

(** The ways the body of a job raises: the exception, and what the body
    has added to the log when it is raised. *)
Inductive job_failure (e : env) (url ffmpeg : string) (ao : bool) (ts : string)
    : exn -> list event -> Prop :=
  | FailYouTube x :
      YouTube e url = Raise x ->
      job_failure e url ffmpeg ao ts x [EvPrint (url +:+ nl)]
  | FailTitle yt x :
      YouTube e url = Ok yt -> title yt = Raise x ->
      job_failure e url ffmpeg ao ts x [EvPrint (url +:+ nl)]
  | FailStreams yt t x :
      YouTube e url = Ok yt -> title yt = Ok t -> streams yt = Raise x ->
      job_failure e url ffmpeg ao ts x [EvPrint (url +:+ nl)]
  | FailNoAudio yt t q :
      YouTube e url = Ok yt -> title yt = Ok t -> streams yt = Ok q ->
      first (desc (order_by abr (List.filter only_audio q))) = None ->
      job_failure e url ffmpeg ao ts (none_has_no "abr") [EvPrint (url +:+ nl)]
  | FailAudioDownload yt t q a x :
      YouTube e url = Ok yt -> title yt = Ok t -> streams yt = Ok q ->
      first (desc (order_by abr (List.filter only_audio q))) = Some a ->
      download_raises a = Some x ->
      job_failure e url ffmpeg ao ts x
        [EvPrint (url +:+ nl); EvPrint ("Download audio start..." +:+ nl)]
  | FailNoVideo yt t q a :
      ao = false ->
      YouTube e url = Ok yt -> title yt = Ok t -> streams yt = Ok q ->
      first (desc (order_by abr (List.filter only_audio q))) = Some a ->
      download_raises a = None ->
      first (desc (order_by resolution (List.filter only_video q))) = None ->
      job_failure e url ffmpeg ao ts (none_has_no "download")
        [EvPrint (url +:+ nl); EvPrint ("Download audio start..." +:+ nl);
         EvDownload (audio_filename_of ts); EvPrint ("Done" +:+ nl);
         EvPrint ("Download video start..." +:+ nl)]
  | FailVideoDownload yt t q a v x :
      ao = false ->
      YouTube e url = Ok yt -> title yt = Ok t -> streams yt = Ok q ->
      first (desc (order_by abr (List.filter only_audio q))) = Some a ->
      download_raises a = None ->
      first (desc (order_by resolution (List.filter only_video q))) = Some v ->
      download_raises v = Some x ->
      job_failure e url ffmpeg ao ts x
        [EvPrint (url +:+ nl); EvPrint ("Download audio start..." +:+ nl);
         EvDownload (audio_filename_of ts); EvPrint ("Done" +:+ nl);
         EvPrint ("Download video start..." +:+ nl)]
  | FailPopen yt t q a abr_text x :
      YouTube e url = Ok yt -> title yt = Ok t -> streams yt = Ok q ->
      first (desc (order_by abr (List.filter only_audio q))) = Some a ->
      abr a = Some abr_text ->
      download_raises a = None ->
      (ao = false ->
       exists v,
         first (desc (order_by resolution (List.filter only_video q))) = Some v
         /\ download_raises v = None) ->
      Popen e (job_command ffmpeg ao ts (sanitize_title t) abr_text) = Raise x ->
      job_failure e url ffmpeg ao ts x
        ([EvPrint (url +:+ nl); EvPrint ("Download audio start..." +:+ nl);
          EvDownload (audio_filename_of ts); EvPrint ("Done" +:+ nl)]
         ++ (if ao then []
             else [EvPrint ("Download video start..." +:+ nl);
                   EvDownload (video_filename_of ts);
                   EvPrint ("Done" +:+ nl)]))
  | FailForward yt t q a abr_text p x :
      YouTube e url = Ok yt -> title yt = Ok t -> streams yt = Ok q ->
      first (desc (order_by abr (List.filter only_audio q))) = Some a ->
      abr a = Some abr_text ->
      download_raises a = None ->
      (ao = false ->
       exists v,
         first (desc (order_by resolution (List.filter only_video q))) = Some v
         /\ download_raises v = None) ->
      Popen e (job_command ffmpeg ao ts (sanitize_title t) abr_text) = Ok p ->
      proc_stdout_error p = Some x ->
      job_failure e url ffmpeg ao ts x
        ([EvPrint (url +:+ nl); EvPrint ("Download audio start..." +:+ nl);
          EvDownload (audio_filename_of ts); EvPrint ("Done" +:+ nl)]
         ++ (if ao then []
             else [EvPrint ("Download video start..." +:+ nl);
                   EvDownload (video_filename_of ts);
                   EvPrint ("Done" +:+ nl)])
         ++ [EvSpawn (job_command ffmpeg ao ts (sanitize_title t) abr_text)]
         ++ map EvPrint (proc_stdout p)).

(** A character that [repr] copies as it is between single quotes. *)
Definition plain_char (c : ascii) : bool :=
  isprintable c && negb (Ascii.eqb c squote) && negb (Ascii.eqb c backslash).

(** A token the quoting of [repr] leaves as it is, and that holds no
    white space. *)
Definition plain_token (tok : string) : bool :=
  str_forall (fun c => plain_char c && negb (isspace c)) tok.

(** A name that holds neither a space nor a slash: it names a file of
    the working directory, and is one word of a command line. *)
Definition flat_name (s : string) : bool :=
  negb (str_mem " " s) && negb (str_mem "/" s).

(** The exceptions the loop has caught so far (line 68). *)
Definition caught (l : list event) : list exn :=
  omap (fun ev => match ev with EvCaught x => Some x | _ => None end) l.

(** * Properties *)

(** ** The string operations on small inputs *)

Example strip_example : strip ("  a b " +:+ tab +:+ nl) = "a b".
Proof. reflexivity. Qed.

Example split_examples :
  split " " "a  b " = ["a"; ""; "b"; ""]
  /\ split " " "" = [""]
  /\ split " " ("a" +:+ tab +:+ "b c") = ["a" +:+ tab +:+ "b"; "c"].
Proof. repeat split. Qed.

Example str_of_list_examples :
  str_of_list ["a"; "b c"] = "['a', 'b c']"
  /\ str_of_list ["a\b"] = "['a\\b']"
  /\ str_of_list ["a" +:+ tab +:+ "b"] = "['a\tb']"
  /\ str_of_list ["it's"] = "[" +:+ str1 dquote +:+ "it's" +:+ str1 dquote +:+ "]"
  /\ str_of_list [str1 (ascii_of_nat 233); str1 (ascii_of_nat 160)]
     = "['" +:+ str1 (ascii_of_nat 233) +:+ "', '\xa0']".
Proof. repeat split. Qed.

Example whitespace_tokens_example :
  whitespace_tokens ("a" +:+ tab +:+ " b  c") = ["a"; "b"; "c"].
Proof. reflexivity. Qed.

Example strftime_example : strftime (Datetime 2024 3 9 21 5 7) = "2024-03-09_21-05-07".
Proof. reflexivity. Qed.

(** ** Strings *)

Lemma length_append (a b : string) :
  String.length (a +:+ b) = String.length a + String.length b.
Proof. induction a as [|c a IH]; simpl; [reflexivity | now rewrite IH]. Qed.

Lemma split_nonempty (sep : ascii) (s : string) : split sep s <> [].
Proof.
  induction s as [|c r IH]; simpl; [discriminate|].
  destruct (Ascii.eqb c sep); [discriminate|].
  destruct (split sep r); discriminate.
Qed.

Lemma lstrip_all_space (s : string) :
  str_forall isspace s = true -> lstrip s = EmptyString.
Proof.
  induction s as [|c r IH]; simpl; [reflexivity|].
  intros [Hc Hr]%andb_true_iff. rewrite Hc. auto.
Qed.

Lemma strip_all_space (s : string) :
  str_forall isspace s = true -> strip s = EmptyString.
Proof. intros H. unfold strip. now rewrite lstrip_all_space. Qed.

Lemma repr_char_length (q c : ascii) : 1 <= String.length (repr_char q c).
Proof.
  unfold repr_char, hex_escape.
  repeat match goal with |- context [if ?b then _ else _] => destruct b end;
    simpl; lia.
Qed.

Lemma repr_body_length (q : ascii) (s : string) :
  String.length s <= String.length (repr_body q s).
Proof.
  induction s as [|c r IH]; simpl; [lia|].
  rewrite length_append. pose proof (repr_char_length q c). lia.
Qed.

Lemma repr_str_length (s : string) :
  String.length s + 2 <= String.length (repr_str s).
Proof.
  unfold repr_str. simpl. rewrite length_append. simpl.
  pose proof (repr_body_length (repr_quote s) s). lia.
Qed.

Lemma str_of_list_singleton_length (t : string) :
  String.length t + 4 <= String.length (str_of_list [t]).
Proof.
  pose proof (repr_str_length t) as L.
  unfold str_of_list. cbn [map join].
  rewrite !length_append. cbn [String.length]. lia.
Qed.

Lemma str_of_list_singleton_neq (t : string) : str_of_list [t] <> t.
Proof.
  intros H. pose proof (str_of_list_singleton_length t) as L.
  rewrite H in L. lia.
Qed.

(** ** The line classifier *)

Section ClassifierFacts.

Variable v : string -> bool.

(** The decision taken for a line, read off its list of tokens. *)
Lemma classify_line_tokens (line : string) :
  classify_line v line =
  Ok (match split " " (strip line) with
      | [] => Bad NoTokens
      | [t] => if v t then Call (str_of_list [t]) false else Bad BadUrl
      | [t1; t2] =>
          if v t2
          then if String.eqb t1 "a" then Call t2 true else Bad BadFlag
          else Call (str_of_list [t1; t2]) false
      | _ => Bad TooManyTokens
      end).
Proof.
  unfold classify_line.
  destruct (split " " (strip line)) as [|t1 [|t2 [|t3 ts]]]; simpl.
  - reflexivity.
  - destruct (v t1); reflexivity.
  - destruct (v t2) eqn:Hv; simpl; [|reflexivity].
    destruct (String.eqb t1 "a"); simpl; [|reflexivity].
    destruct t2 as [|c [|c' r]]; simpl; try reflexivity.
    unfold str1. now rewrite Hv.
  - reflexivity.
Qed.

Lemma classify_line_total (line : string) :
  exists d, classify_line v line = Ok d.
Proof. rewrite classify_line_tokens. eauto. Qed.

End ClassifierFacts.

(** ** Running the monadic code *)

Lemma for_each_print_noend (l : list string) (w : world) :
  for_each l print_noend w
  = (Ok tt, World (files w) (ticks w) (log w ++ map EvPrint l)).
Proof.
  revert w. induction l as [|x l IH]; intros w; simpl.
  - unfold ret. rewrite app_nil_r. now destruct w.
  - unfold bind, print_noend, emit at 1. simpl. rewrite IH. simpl.
    now rewrite <- app_assoc.
Qed.

Lemma audio_video_names_differ (t1 t2 : string) :
  audio_filename_of t1 <> video_filename_of t2.
Proof. discriminate. Qed.

Lemma outcomes_app l1 l2 : outcomes (l1 ++ l2) = outcomes l1 ++ outcomes l2.
Proof. apply List.filter_app. Qed.

Lemma downloads_app l1 l2 : downloads (l1 ++ l2) = downloads l1 ++ downloads l2.
Proof. apply omap_app. Qed.

Lemma spawns_app l1 l2 : spawns (l1 ++ l2) = spawns l1 ++ spawns l2.
Proof. apply omap_app. Qed.

Lemma outcomes_prints l : outcomes (map EvPrint l) = [].
Proof. induction l; simpl; auto. Qed.

Lemma downloads_prints l : downloads (map EvPrint l) = [].
Proof. induction l; simpl; auto. Qed.

Lemma spawns_prints l : spawns (map EvPrint l) = [].
Proof. induction l; simpl; auto. Qed.

Lemma new_events_app (w w' : world) (evs : list event) :
  log w' = log w ++ evs -> new_events w w' = evs.
Proof. unfold new_events. intros ->. apply drop_app_length. Qed.

Lemma remove_after_download (F : gset string) (a : string) :
  ({[a]} ∪ F) ∖ {[a]} = F ∖ {[a]}.
Proof.
  apply set_eq. intros x.
  rewrite !elem_of_difference, elem_of_union, !elem_of_singleton. tauto.
Qed.

Lemma remove_after_download_both (F : gset string) (a v : string) :
  ({[v]} ∪ ({[a]} ∪ F)) ∖ {[v]} ∖ {[a]} = F ∖ {[a; v]}.
Proof.
  apply set_eq. intros x.
  rewrite !elem_of_difference, !elem_of_union, !elem_of_singleton. tauto.
Qed.

Lemma kept_after_download_both (F : gset string) (a v : string) :
  {[v]} ∪ ({[a]} ∪ F) = {[a; v]} ∪ F.
Proof.
  apply set_eq. intros x.
  rewrite !elem_of_union, !elem_of_singleton. tauto.
Qed.

Ltac unfold_ops :=
  unfold download_from_youtube, timing_decorator, download_from_youtube_body,
    run_and_forward, for_each_of, popen, print, download, os_remove,
    datetime_now, emit, lift, bind, ret, raise in *.

(** One step of the execution: the forwarding loop is replaced by its
    result, any other pending [match] is split. *)
Ltac exec_match :=
  first [ match goal with
          | H : context [for_each _ print_noend _] |- _ =>
              rewrite for_each_print_noend in H
          | |- context [for_each _ print_noend _] =>
              rewrite for_each_print_noend
          end
        | case_match ].

Ltac exec_step := cbn [files ticks log] in *; exec_match; simplify_eq.

Ltac trace_simpl :=
  rewrite ?outcomes_app, ?downloads_app, ?spawns_app,
    ?outcomes_prints, ?downloads_prints, ?spawns_prints;
  cbn [outcomes downloads spawns List.filter omap is_outcome app
       option_bind mbind list_omap].

(** Every run of the body of a job: what it adds to the log, and, when
    the transcoder was started, the values its command was built from
    and the state of the directory at the end. *)
Lemma body_inv e url ffmpeg ao w r w' :
  download_from_youtube_body e url ffmpeg ao w = (r, w') ->
  let ts := strftime (now e (ticks w)) in
  exists evs,
    log w' = log w ++ evs
    /\ head evs = Some (EvPrint (url +:+ nl))
    /\ ticks w' = S (ticks w)
    /\ outcomes evs = []
    /\ (downloads evs = [] \/ downloads evs = [audio_filename_of ts]
        \/ downloads evs = [audio_filename_of ts; video_filename_of ts])
    /\ (spawns evs = []
        \/ exists yt t q a abr_text,
             YouTube e url = Ok yt /\ title yt = Ok t /\ streams yt = Ok q
             /\ first (desc (order_by abr (List.filter only_audio q))) = Some a
             /\ abr a = Some abr_text
             /\ spawns evs = [job_command ffmpeg ao ts (sanitize_title t) abr_text]
             /\ downloads evs = (if negb ao
                                 then [audio_filename_of ts; video_filename_of ts]
                                 else [audio_filename_of ts])
             /\ exists p,
                  Popen e (job_command ffmpeg ao ts (sanitize_title t) abr_text)
                  = Ok p
                  /\ match proc_stdout_error p with
                     | None => r = Ok tt
                               /\ files w' = files w ∖ temp_files ao ts
                     | Some x => r = Raise x
                                 /\ files w' = temp_files ao ts ∪ files w
                     end).
Proof.
  intros H ts. unfold_ops. cbv beta in H.
  pose proof (audio_video_names_differ ts ts) as Hav. subst ts.
  repeat exec_step.
  all: cbn [files ticks log] in *.
  all: try match goal with
           | n : _ ∉ _ |- _ => exfalso; clear -n Hav; set_solver
           end.
  all: eexists; split; [rewrite <- ?app_assoc; reflexivity|].
  all: split; [reflexivity|].
  all: split; [reflexivity|]; trace_simpl.
  all: split; [reflexivity|]; split; [auto|].
  all: try (left; reflexivity).
  all: right; destruct ao; try discriminate.
  all: do 5 eexists; repeat (split; [eassumption || reflexivity|]).
  all: eexists; split; [eassumption|].
  all: match goal with H : proc_stdout_error _ = _ |- _ => rewrite H end.
  all: split; [reflexivity|]; unfold temp_files; cbn [negb].
  all: first [ apply remove_after_download_both | apply remove_after_download
             | apply kept_after_download_both | reflexivity ].
Qed.

(** The decorated function: the report of the elapsed time closes the
    log exactly when the body returned. *)
Lemma job_inv e url ffmpeg ao w r w' :
  download_from_youtube e url ffmpeg ao w = (r, w') ->
  let ts := strftime (now e (ticks w)) in
  exists evs,
    log w' = log w ++ evs
    /\ head evs = Some (EvPrint (url +:+ nl))
    /\ ticks w' = S (ticks w)
    /\ outcomes evs = match r with
                      | Ok _ => [EvTiming "download_from_youtube"]
                      | Raise _ => []
                      end
    /\ (downloads evs = [] \/ downloads evs = [audio_filename_of ts]
        \/ downloads evs = [audio_filename_of ts; video_filename_of ts])
    /\ (spawns evs = []
        \/ exists yt t q a abr_text,
             YouTube e url = Ok yt /\ title yt = Ok t /\ streams yt = Ok q
             /\ first (desc (order_by abr (List.filter only_audio q))) = Some a
             /\ abr a = Some abr_text
             /\ spawns evs = [job_command ffmpeg ao ts (sanitize_title t) abr_text]
             /\ downloads evs = (if negb ao
                                 then [audio_filename_of ts; video_filename_of ts]
                                 else [audio_filename_of ts])
             /\ exists p,
                  Popen e (job_command ffmpeg ao ts (sanitize_title t) abr_text)
                  = Ok p
                  /\ match proc_stdout_error p with
                     | None => r = Ok tt
                               /\ files w' = files w ∖ temp_files ao ts
                     | Some x => r = Raise x
                                 /\ files w' = temp_files ao ts ∪ files w
                     end).
Proof.
  intros H ts. subst ts.
  unfold download_from_youtube, timing_decorator in H. unfold bind at 1 in H.
  destruct (download_from_youtube_body e url ffmpeg ao w) as [rb wb] eqn:Hb.
  apply body_inv in Hb. cbv zeta in Hb.
  destruct Hb as (evs & Hlog & Hhd & Htick & Hout & Hdl & Hsp).
  destruct rb as [[]|x].
  - unfold bind, emit, ret in H. simplify_eq. cbn [files ticks log].
    exists (evs ++ [EvTiming "download_from_youtube"]).
    rewrite Hlog, <- app_assoc, outcomes_app, downloads_app, spawns_app, Hout.
    cbn. rewrite !app_nil_r.
    split; [reflexivity|]. split; [|auto 10].
    destruct evs; [discriminate | exact Hhd].
  - simplify_eq. exists evs. auto 10.
Qed.

(** One iteration of the loop never raises; it closes with exactly one
    outcome and reads the clock at most once. *)
Lemma loop_body_inv e ffmpeg line w :
  exists w' evs,
    loop_body e ffmpeg line w = (Ok tt, w')
    /\ log w' = log w ++ evs
    /\ length (outcomes evs) = 1
    /\ (ticks w' = ticks w /\ downloads evs = []
        \/ ticks w' = S (ticks w)
           /\ let ts := strftime (now e (ticks w)) in
              (downloads evs = [] \/ downloads evs = [audio_filename_of ts]
               \/ downloads evs = [audio_filename_of ts; video_filename_of ts])).
Proof.
  unfold loop_body, bind at 1, lift.
  destruct (classify_line_total (valid_url e) line) as [d ->].
  destruct d as [site|url ao].
  - unfold emit. eexists _, [EvBadLine site line].
    cbn [files ticks log]. repeat split; auto.
  - unfold try_except.
    destruct (download_from_youtube e url ffmpeg ao w) as [r w1] eqn:Hj.
    apply job_inv in Hj. cbv zeta in Hj.
    destruct Hj as (evs & Hlog & _ & Htick & Hout & Hdl & _).
    destruct r as [[]|x].
    + exists w1, evs. rewrite Hout. repeat split; auto.
    + unfold emit. eexists _, (evs ++ [EvCaught x]). cbn [files ticks log].
      rewrite Hlog, <- app_assoc, outcomes_app, downloads_app, Hout.
      cbn. rewrite app_nil_r. repeat split; auto.
Qed.

(** ** Names of the temporary files *)

Lemma append_cancel_r (a b c : string) : a +:+ c = b +:+ c -> a = b.
Proof.
  revert b. induction a as [|x a IH]; intros [|y b] H.
  - reflexivity.
  - apply (f_equal String.length) in H. rewrite !length_append in H.
    simpl in H. lia.
  - apply (f_equal String.length) in H. rewrite !length_append in H.
    simpl in H. lia.
  - change (String x (a +:+ c) = String y (b +:+ c)) in H.
    injection H as -> H. f_equal. auto.
Qed.

Lemma audio_filename_inj (t1 t2 : string) :
  audio_filename_of t1 = audio_filename_of t2 -> t1 = t2.
Proof.
  unfold audio_filename_of. intros H.
  apply (append_cancel_r _ _ ".mp4").
  change ("audio_" +:+ ?t +:+ ".mp4") with
    (String "a" (String "u" (String "d" (String "i" (String "o"
       (String "_" (t +:+ ".mp4"))))))) in H.
  now injection H.
Qed.

Lemma video_filename_inj (t1 t2 : string) :
  video_filename_of t1 = video_filename_of t2 -> t1 = t2.
Proof.
  unfold video_filename_of. intros H.
  apply (append_cancel_r _ _ ".mp4").
  change ("video_" +:+ ?t +:+ ".mp4") with
    (String "v" (String "i" (String "d" (String "e" (String "o"
       (String "_" (t +:+ ".mp4"))))))) in H.
  now injection H.
Qed.

(** ** The loop over the lines *)

Lemma named_at_distinct e i j f :
  strftime (now e i) <> strftime (now e j) ->
  named_at e i f -> named_at e j f -> False.
Proof.
  intros Hne [-> | ->] [H | H].
  - apply audio_filename_inj in H. auto.
  - now apply audio_video_names_differ in H.
  - symmetry in H. now apply audio_video_names_differ in H.
  - apply video_filename_inj in H. auto.
Qed.

Lemma for_each_loop_inv e ffmpeg lines w :
  exists w' evs,
    for_each lines (loop_body e ffmpeg) w = (Ok tt, w')
    /\ log w' = log w ++ evs
    /\ length (outcomes evs) = length lines
    /\ ticks w <= ticks w'
    /\ (forall f, f ∈ downloads evs ->
          exists i, ticks w <= i < ticks w' /\ named_at e i f)
    /\ ((forall i j, ticks w <= i -> i < j -> j < ticks w' ->
           strftime (now e i) <> strftime (now e j)) ->
        NoDup (downloads evs)).
Proof.
  revert w. induction lines as [|line lines IH]; intros w.
  - exists w, []. cbn. unfold ret. rewrite app_nil_r.
    repeat split; auto.
    + intros f Hf. inversion Hf.
    + intros _. constructor.
  - destruct (loop_body_inv e ffmpeg line w)
      as (w1 & evs1 & Hrun1 & Hlog1 & Hout1 & Hd1).
    destruct (IH w1) as (w' & evs2 & Hrun2 & Hlog2 & Hout2 & Hle2 & Hin2 & Hnd2).
    exists w', (evs1 ++ evs2).
    assert (Hle1 : ticks w <= ticks w1) by (destruct Hd1 as [[-> _]|[-> _]]; lia).
    assert (Hin1 : forall f, f ∈ downloads evs1 ->
                     ticks w1 = S (ticks w) /\ named_at e (ticks w) f).
    { intros f Hf. destruct Hd1 as [[_ Hd]|[Ht Hd]].
      - rewrite Hd in Hf. inversion Hf.
      - split; [exact Ht|]. cbv zeta in Hd. unfold named_at.
        destruct Hd as [Hd|[Hd|Hd]]; rewrite Hd in Hf;
          repeat (apply elem_of_cons in Hf as [->|Hf]); auto; inversion Hf. }
    assert (Hnd1 : NoDup (downloads evs1)).
    { destruct Hd1 as [[_ Hd]|[_ Hd]]; cbv zeta in Hd.
      - rewrite Hd. constructor.
      - destruct Hd as [Hd|[Hd|Hd]]; rewrite Hd.
        + constructor.
        + apply NoDup_singleton.
        + apply NoDup_cons. split; [|apply NoDup_singleton].
          intros Hx. apply list_elem_of_singleton in Hx.
          now apply audio_video_names_differ in Hx. }
    split; [|split; [|split; [|split; [|split]]]].
    + cbn [for_each]. unfold bind. now rewrite Hrun1.
    + now rewrite Hlog2, Hlog1, <- app_assoc.
    + rewrite outcomes_app, length_app, Hout1, Hout2. reflexivity.
    + lia.
    + intros f. rewrite downloads_app, elem_of_app. intros [Hf|Hf].
      * apply Hin1 in Hf as [Ht Hn]. exists (ticks w). split; [lia|exact Hn].
      * apply Hin2 in Hf as (i & Hi & Hn). exists i. split; [lia|exact Hn].
    + intros Hclock. rewrite downloads_app. apply NoDup_app.
      split; [exact Hnd1|]. split.
      * intros f Hf1 Hf2.
        apply Hin1 in Hf1 as [Ht Hn1]. apply Hin2 in Hf2 as (i & Hi & Hn2).
        apply (named_at_distinct e (ticks w) i f); auto.
        apply Hclock; lia.
      * apply Hnd2. intros i j Hi Hij Hj. apply Hclock; lia.
Qed.

(** The batch: nothing happens when the file cannot be opened; otherwise
    the lines the iterator yields are processed, and the exception of
    the iterator, if any, leaves the batch after them. *)
Lemma batch_run e path ffmpeg w :
  download_youtube_videos_from_file e path ffmpeg w
  = match open_file e path with
    | Ok f =>
        (match file_error f with Some x => Raise x | None => Ok tt end,
         snd (for_each (file_lines f) (loop_body e ffmpeg) w))
    | Raise x => (Raise x, w)
    end.
Proof.
  unfold download_youtube_videos_from_file, for_each_of, bind, lift.
  destruct (open_file e path) as [f|x]; [|reflexivity].
  destruct (for_each_loop_inv e ffmpeg (file_lines f) w) as (w' & evs & -> & _).
  now destruct (file_error f).
Qed.

Lemma batch_of_lines e path ffmpeg lines w :
  open_lines e path = Ok lines ->
  download_youtube_videos_from_file e path ffmpeg w
  = for_each lines (loop_body e ffmpeg) w.
Proof.
  intros Hopen. rewrite batch_run. unfold open_lines in Hopen.
  destruct (open_file e path) as [f|x]; [|discriminate].
  destruct (file_error f); [discriminate|]. injection Hopen as <-.
  destruct (for_each_loop_inv e ffmpeg (file_lines f) w) as (w' & evs & -> & _).
  reflexivity.
Qed.

(** ** The choice of a stream *)

Lemma insert_by_elem {A} (le : A -> A -> bool) (x y : A) (l : list A) :
  y ∈ insert_by le x l <-> y = x \/ y ∈ l.
Proof.
  induction l as [|z l IH]; simpl.
  - rewrite elem_of_cons. tauto.
  - destruct (le x z); rewrite !elem_of_cons, ?IH; tauto.
Qed.

Lemma sorted_by_elem {A} (le : A -> A -> bool) (y : A) (l : list A) :
  y ∈ sorted_by le l <-> y ∈ l.
Proof.
  induction l as [|x l IH]; simpl; [reflexivity|].
  rewrite insert_by_elem, elem_of_cons, IH. tauto.
Qed.

Section SortedBy.

Context {A : Type} (key : A -> N).

Let le (s t : A) : bool := N.leb (key s) (key t).

Lemma insert_by_last_max (x : A) (l : list A) :
  last_is_max key l -> last_is_max key (insert_by le x l).
Proof.
  induction l as [|y l IH]; intros Hl m Hm z Hz.
  - simpl in *. simplify_eq. apply list_elem_of_singleton in Hz as ->. lia.
  - simpl in Hm, Hz.
    destruct (le x y) eqn:Hxy; unfold le in Hxy;
      [apply N.leb_le in Hxy | apply N.leb_gt in Hxy].
    + rewrite last_cons_cons in Hm.
      apply elem_of_cons in Hz as [->|Hz]; [|exact (Hl m Hm z Hz)].
      etransitivity; [exact Hxy|]. apply (Hl m Hm). left.
    + assert (Hl' : last_is_max key l).
      { intros m' Hm' x' Hx'. apply (Hl m'); [|now right].
        destruct l; [discriminate|]. now rewrite last_cons_cons. }
      assert (Hne : insert_by le x l <> []) by (destruct l; simpl; [|destruct (le x a)]; discriminate).
      destruct (insert_by le x l) as [|h t] eqn:Hins; [congruence|].
      rewrite last_cons_cons in Hm. rewrite <- Hins in *.
      specialize (IH Hl' m Hm).
      apply elem_of_cons in Hz as [->|Hz]; [|exact (IH z Hz)].
      destruct l as [|y' l'].
      * simpl in Hm. simplify_eq. lia.
      * assert (Hlast : is_Some (last (y' :: l'))) by (apply last_is_Some; discriminate).
        destruct Hlast as [m0 Hm0].
        transitivity (key m0).
        -- apply (Hl m0); [now rewrite last_cons_cons | left].
        -- apply IH. apply insert_by_elem. right.
           apply last_Some_elem_of. exact Hm0.
Qed.

Lemma sorted_by_last_max (l : list A) : last_is_max key (sorted_by le l).
Proof.
  induction l as [|x l IH]; simpl.
  - intros m Hm. discriminate.
  - now apply insert_by_last_max.
Qed.

End SortedBy.

Lemma elem_of_filter_bool {A} (p : A -> bool) (x : A) (l : list A) :
  x ∈ List.filter p l <-> x ∈ l /\ p x = true.
Proof. rewrite !list_elem_of_In. apply filter_In. Qed.

(** What [order_by(attr).desc().first()] returns: a stream of the query
    whose attribute is set and, when every set attribute holds an
    integer, one whose integer is the largest. *)
Lemma order_by_first_max (attr : Stream -> option string) (q : list Stream)
    (a : Stream) :
  first (desc (order_by attr q)) = Some a ->
  a ∈ q /\ is_Some (attr a)
  /\ ((forall s, s ∈ q -> is_Some (attr s) -> is_Some (int_key attr s)) ->
      forall s, s ∈ q -> is_Some (attr s) ->
        (default 0 (int_key attr s) <= default 0 (int_key attr a))%N).
Proof.
  unfold first, desc. rewrite head_reverse. unfold order_by.
  set (has := List.filter (fun s => bool_decide (is_Some (attr s))) q).
  assert (Hhas : forall s, s ∈ has <-> s ∈ q /\ is_Some (attr s)).
  { intros s. unfold has. rewrite elem_of_filter_bool, bool_decide_eq_true.
    reflexivity. }
  intros Hlast.
  assert (Ha : a ∈ has).
  { destruct (forallb _ has); apply last_Some_elem_of in Hlast;
      now apply sorted_by_elem in Hlast. }
  apply Hhas in Ha as [Haq Hattr]. split; [exact Haq|]. split; [exact Hattr|].
  intros Hint s Hs Hsattr.
  assert (Hall : forallb (fun s => bool_decide (is_Some (int_key attr s))) has = true).
  { apply forallb_forall. intros x Hx. apply list_elem_of_In, Hhas in Hx as [Hx1 Hx2].
    apply bool_decide_eq_true. auto. }
  rewrite Hall in Hlast.
  apply (sorted_by_last_max (fun s => default 0%N (int_key attr s)) has a Hlast).
  apply sorted_by_elem, Hhas. auto.
Qed.

(** A job that starts the transcoder: the values its command is built
    from, and its result and the files it leaves, by whether the output
    of the transcoder is read to the end. *)
Lemma job_spawn e url ffmpeg ao w cmd :
  let run := download_from_youtube e url ffmpeg ao w in
  let ts := strftime (now e (ticks w)) in
  cmd ∈ spawns (new_events w (snd run)) ->
  exists yt t q a abr_text,
    YouTube e url = Ok yt /\ title yt = Ok t /\ streams yt = Ok q
    /\ first (desc (order_by abr (List.filter only_audio q))) = Some a
    /\ abr a = Some abr_text
    /\ cmd = job_command ffmpeg ao ts (sanitize_title t) abr_text
    /\ spawns (new_events w (snd run)) = [cmd]
    /\ downloads (new_events w (snd run))
       = (if negb ao then [audio_filename_of ts; video_filename_of ts]
          else [audio_filename_of ts])
    /\ exists p,
         Popen e cmd = Ok p
         /\ match proc_stdout_error p with
            | None => fst run = Ok tt
                      /\ files (snd run) = files w ∖ temp_files ao ts
            | Some x => fst run = Raise x
                        /\ files (snd run) = temp_files ao ts ∪ files w
            end.
Proof.
  intros run ts Hcmd. subst run ts.
  destruct (download_from_youtube e url ffmpeg ao w) as [r w'] eqn:Hrun.
  apply job_inv in Hrun. cbv zeta in Hrun.
  destruct Hrun as (evs & Hlog & _ & _ & _ & _ & Hsp). cbn [fst snd] in *.
  rewrite (new_events_app _ _ _ Hlog) in *.
  destruct Hsp as [Hsp|(yt & t & q & a & abr_text & H1 & H2 & H3 & H4 & H5 & H6 & H7 & H8)].
  - rewrite Hsp in Hcmd. inversion Hcmd.
  - rewrite H6 in Hcmd. apply list_elem_of_singleton in Hcmd. subst cmd.
    exists yt, t, q, a, abr_text. auto 10.
Qed.

(** ** Tokens *)

Lemma join_cons_cons (sep x y : string) (l : list string) :
  join sep (x :: y :: l) = x +:+ sep +:+ join sep (y :: l).
Proof. reflexivity. Qed.

Lemma join_split (sep : ascii) (s : string) :
  join (str1 sep) (split sep s) = s.
Proof.
  induction s as [|c r IH]; [reflexivity|].
  cbn [split]. pose proof (split_nonempty sep r) as Hr.
  destruct (split sep r) as [|t ts] eqn:E; [congruence|].
  destruct (Ascii.eqb_spec c sep) as [->|Hne].
  - rewrite join_cons_cons, IH. reflexivity.
  - destruct ts as [|t' ts].
    + cbn [join] in *. now rewrite IH.
    + rewrite join_cons_cons in *.
      change (String c (t +:+ str1 sep +:+ join (str1 sep) (t' :: ts))
              = String c r).
      now rewrite IH.
Qed.

Lemma split_tokens_free_of_sep (sep : ascii) (s : string) :
  Forall (fun t => str_mem sep t = false) (split sep s).
Proof.
  induction s as [|c r IH]; cbn [split].
  - repeat constructor.
  - destruct (Ascii.eqb_spec c sep) as [->|Hne].
    + constructor; [reflexivity | exact IH].
    + destruct (split sep r) as [|t ts]; [repeat constructor|].
      * cbn. apply Ascii.eqb_neq in Hne. rewrite Ascii.eqb_sym, Hne. reflexivity.
      * inversion IH as [|? ? Ht Hts]; subst. constructor; [|exact Hts].
        cbn. apply Ascii.eqb_neq in Hne. now rewrite Ascii.eqb_sym, Hne.
Qed.

Lemma loop_body_bad (e : env) (ffmpeg line : string) (site : reject_site)
    (w : world) :
  classify_line (valid_url e) line = Ok (Bad site) ->
  loop_body e ffmpeg line w
  = (Ok tt, World (files w) (ticks w) (log w ++ [EvBadLine site line])).
Proof. intros H. unfold loop_body, bind, lift. now rewrite H. Qed.

Lemma loop_body_call (e : env) (ffmpeg line url : string) (ao : bool)
    (w : world) :
  classify_line (valid_url e) line = Ok (Call url ao) ->
  exists w1,
    loop_body e ffmpeg line w = (Ok tt, w1)
    /\ head (new_events w w1) = Some (EvPrint (url +:+ nl))
    /\ ticks w1 = S (ticks w).
Proof.
  intros H. unfold loop_body, bind, lift, try_except. rewrite H.
  destruct (download_from_youtube e url ffmpeg ao w) as [r w'] eqn:Hj.
  apply job_inv in Hj. cbv zeta in Hj.
  destruct Hj as (evs & Hlog & Hhd & Htick & _).
  destruct r as [[]|x].
  - exists w'. rewrite (new_events_app _ _ _ Hlog). auto.
  - unfold emit. eexists. split; [reflexivity|]. cbn [ticks].
    split; [|exact Htick].
    rewrite (new_events_app _ _ (evs ++ [EvCaught x])).
    + destruct evs; [discriminate | exact Hhd].
    + cbn [log]. now rewrite Hlog, <- app_assoc.
Qed.

(** ** The loop and the exit status *)

Lemma for_each_app {A} (l1 l2 : list A) (body : A -> M unit) (w : world) :
  for_each (l1 ++ l2) body w
  = match for_each l1 body w with
    | (Ok _, w1) => for_each l2 body w1
    | (Raise x, w1) => (Raise x, w1)
    end.
Proof.
  revert w. induction l1 as [|a l1 IH]; intros w; cbn [for_each app].
  - reflexivity.
  - unfold bind. destruct (body a w) as [[[]|x] w1]; [apply IH | reflexivity].
Qed.

Lemma meq_refl {A} (m : M A) : meq m m.
Proof. intros w. reflexivity. Qed.

Lemma bind_ext {A B} (m1 m2 : M A) (k1 k2 : A -> M B) :
  meq m1 m2 -> (forall a, meq (k1 a) (k2 a)) -> meq (bind m1 k1) (bind m2 k2).
Proof.
  intros Hm Hk w. unfold bind. rewrite (Hm w).
  destruct (m2 w) as [[a|x] w1]; [apply Hk | reflexivity].
Qed.

Lemma run_and_forward_status (f : Z -> Z) (e : env) (command : list string) :
  meq (run_and_forward (with_exit_status f e) command)
      (run_and_forward e command).
Proof.
  intros w. unfold run_and_forward, popen, bind, lift, emit, ret.
  cbn [with_exit_status Popen]. destruct (Popen e command); reflexivity.
Qed.

(** The exit status of the transcoder has no influence on a job. *)
Lemma exit_status_unread (f : Z -> Z) (e : env) (url ffmpeg : string)
    (ao : bool) :
  meq (download_from_youtube (with_exit_status f e) url ffmpeg ao)
      (download_from_youtube e url ffmpeg ao).
Proof.
  unfold download_from_youtube, timing_decorator, download_from_youtube_body.
  repeat first
    [ apply meq_refl
    | apply run_and_forward_status
    | apply bind_ext; [|intros ?]
    | match goal with |- meq (if ?b then _ else _) _ => destruct b end ].
Qed.

Lemma bitrate_needs_abr (s : Stream) (b : N) :
  bitrate s = Some b -> is_Some (abr s).
Proof.
  unfold bitrate, int_key, attr_str. destruct (abr s); [eauto | discriminate].
Qed.

(** ** File names *)

Lemma str_map_length (f : ascii -> ascii) (s : string) :
  String.length (str_map f s) = String.length s.
Proof. induction s as [|c r IH]; simpl; [reflexivity | now rewrite IH]. Qed.

Lemma str_map_get (f : ascii -> ascii) (s : string) (i : nat) :
  String.get i (str_map f s) = option_map f (String.get i s).
Proof.
  revert i. induction s as [|c r IH]; intros i; simpl; [reflexivity|].
  destruct i; [reflexivity | apply IH].
Qed.

Lemma sanitize_title_get (t : string) (i : nat) :
  String.get i (sanitize_title t)
  = option_map (fun c => if Ascii.eqb c " " || Ascii.eqb c "/"
                         then "_"%char else c)
               (String.get i t).
Proof.
  unfold sanitize_title, replace_char. rewrite !str_map_get.
  destruct (String.get i t) as [c|]; [|reflexivity]. cbn [option_map]. f_equal.
  destruct (Ascii.eqb_spec c " ") as [->|Hsp]; [reflexivity|].
  cbn [orb]. reflexivity.
Qed.

Lemma digit_isdecimal (n : nat) : isdecimal (digit n) = true.
Proof.
  unfold digit. pose proof (Nat.mod_upper_bound n 10) as Hlt.
  destruct (n mod 10) as [|[|[|[|[|[|[|[|[|[|k]]]]]]]]]]; try reflexivity; lia.
Qed.

Lemma strftime_shape (dt : datetime) : timestamp_shape (strftime dt) = true.
Proof.
  unfold timestamp_shape, strftime, pad4, pad2, str1.
  cbv [String.append list_ascii_of_string forallb].
  rewrite !digit_isdecimal. reflexivity.
Qed.

Lemma digit_inj (a b : nat) : digit a = digit b -> a mod 10 = b mod 10.
Proof.
  unfold digit. intros H.
  pose proof (Nat.mod_upper_bound a 10). pose proof (Nat.mod_upper_bound b 10).
  apply (f_equal nat_of_ascii) in H.
  rewrite !nat_ascii_embedding in H by lia. lia.
Qed.

Lemma two_digits (a b : nat) :
  a < 100 -> b < 100 ->
  (a / 10) mod 10 = (b / 10) mod 10 -> a mod 10 = b mod 10 -> a = b.
Proof.
  intros Ha Hb H1 H2.
  rewrite (Nat.div_mod_eq a 10), (Nat.div_mod_eq b 10).
  rewrite (Nat.mod_small (a / 10) 10) in H1 by (apply Nat.Div0.div_lt_upper_bound; lia).
  rewrite (Nat.mod_small (b / 10) 10) in H1 by (apply Nat.Div0.div_lt_upper_bound; lia).
  lia.
Qed.

Lemma pad2_inj (a b : nat) : a < 100 -> b < 100 -> pad2 a = pad2 b -> a = b.
Proof.
  intros Ha Hb H. unfold pad2, str1 in H. injection H as H1 H2.
  apply digit_inj in H1, H2. now apply two_digits.
Qed.

Lemma four_digits_expand (a : nat) :
  (Z.of_nat a <= 9999)%Z ->
  a = 1000 * ((a / 1000) mod 10) + 100 * ((a / 100) mod 10)
      + 10 * ((a / 10) mod 10) + a mod 10.
Proof.
  intros Ha.
  assert (H1 : a / 10 / 10 = a / 100) by (now rewrite Nat.Div0.div_div).
  assert (H2 : a / 100 / 10 = a / 1000) by (now rewrite Nat.Div0.div_div).
  pose proof (Nat.div_mod_eq a 10). pose proof (Nat.div_mod_eq (a / 10) 10).
  pose proof (Nat.div_mod_eq (a / 100) 10). pose proof (Nat.div_mod_eq a 1000).
  pose proof (Nat.mod_upper_bound a 10). pose proof (Nat.mod_upper_bound (a / 10) 10).
  pose proof (Nat.mod_upper_bound (a / 100) 10).
  rewrite (Nat.mod_small (a / 1000) 10) by lia.
  lia.
Qed.

Lemma four_digits (a b : nat) :
  (Z.of_nat a <= 9999)%Z -> (Z.of_nat b <= 9999)%Z ->
  (a / 1000) mod 10 = (b / 1000) mod 10 ->
  (a / 100) mod 10 = (b / 100) mod 10 ->
  (a / 10) mod 10 = (b / 10) mod 10 ->
  a mod 10 = b mod 10 -> a = b.
Proof.
  intros Ha Hb H1 H2 H3 H4.
  rewrite (four_digits_expand a Ha), (four_digits_expand b Hb).
  now rewrite H1, H2, H3, H4.
Qed.

(** Two readings of the clock that are valid dates and differ are
    printed differently. *)
Lemma strftime_inj (d1 d2 : datetime) :
  datetime_ok d1 -> datetime_ok d2 -> strftime d1 = strftime d2 -> d1 = d2.
Proof.
  intros (Hy1 & Hm1 & Hd1 & HH1 & HM1 & HS1) (Hy2 & Hm2 & Hd2 & HH2 & HM2 & HS2) H.
  unfold strftime, pad4, pad2, str1 in H. cbv [String.append] in H.
  injection H as Y1 Y2 Y3 Y4 M1 M2 D1 D2 h1 h2 m1 m2 s1 s2.
  apply digit_inj in Y1, Y2, Y3, Y4, M1, M2, D1, D2, h1, h2, m1, m2, s1, s2.
  destruct d1 as [y1 mo1 da1 ho1 mi1 se1], d2 as [y2 mo2 da2 ho2 mi2 se2].
  cbn [year month day hour minute second] in *.
  f_equal; [apply four_digits | apply two_digits ..]; first [assumption | lia].
Qed.

Lemma digit_code (n : nat) : code (digit n) - 48 = n mod 10.
Proof.
  unfold code, digit. pose proof (Nat.mod_upper_bound n 10).
  rewrite nat_ascii_embedding by lia. lia.
Qed.

Lemma two_digits_expand (a : nat) :
  a < 100 -> 10 * ((a / 10) mod 10) + a mod 10 = a.
Proof.
  intros Ha.
  rewrite (Nat.mod_small (a / 10) 10) by (apply Nat.Div0.div_lt_upper_bound; lia).
  pose proof (Nat.div_mod_eq a 10). lia.
Qed.

(** The text printed for a reading of the clock stands for that reading:
    its digits give back the six fields. *)
Lemma strftime_reading (dt : datetime) :
  datetime_ok dt -> timestamp_reading (strftime dt) = Some dt.
Proof.
  intros (Hy & Hm & Hd & HH & HM & HS).
  unfold timestamp_reading. rewrite strftime_shape.
  unfold strftime, pad4, pad2, str1.
  cbv [String.append list_ascii_of_string number_of fold_left].
  rewrite !digit_code. destruct dt as [y m d h mi sec].
  cbn [year month day hour minute second] in *.
  rewrite !Nat.mul_0_r, !Nat.add_0_l.
  f_equal. f_equal.
  - pose proof (four_digits_expand y (proj2 Hy)). lia.
  - apply two_digits_expand. lia.
  - apply two_digits_expand. lia.
  - apply two_digits_expand. lia.
  - apply two_digits_expand. lia.
  - apply two_digits_expand. lia.
Qed.

(** * The claims *)

(** C1 (the program departs from the claim): a line made of one token
    that is a valid URL is dispatched with [audio_only = False], but the
    URL handed to [download_from_youtube] is the text of the one-element
    token list, never the token; a line [a <URL>] is dispatched with the
    second token itself and [audio_only = True]. *)
Theorem one_token_line_passes_list_text (v : string -> bool) (line : string) :
  (forall tok, split " " (strip line) = [tok] -> v tok = true ->
     classify_line v line = Ok (Call (str_of_list [tok]) false)
     /\ str_of_list [tok] <> tok)
  /\ (forall tok, split " " (strip line) = ["a"; tok] -> v tok = true ->
        classify_line v line = Ok (Call tok true)).
Proof.
  split; intros tok Htok Hv; rewrite classify_line_tokens, Htok, Hv.
  - split; [reflexivity | apply str_of_list_singleton_neq].
  - reflexivity.
Qed.

Lemma one_token_line_passes_list_text_witness :
  classify_line sample_valid_url ("https://example.com/video" +:+ nl)
  = Ok (Call "['https://example.com/video']" false)
  /\ str_of_list ["https://example.com/video"] <> "https://example.com/video".
Proof.
  exact (proj1 (one_token_line_passes_list_text sample_valid_url
                  ("https://example.com/video" +:+ nl))
               "https://example.com/video" eq_refl eq_refl).
Defined.

(** C2 (the program departs from the claim): a two-token line whose
    first token is not [a] is rejected only when its second token is a
    valid URL; when the second token is not a valid URL the line, whatever
    its first token, is dispatched: [download_from_youtube] is called with
    the text of the token list and [audio_only = False]. *)
Theorem two_token_line_with_invalid_url_is_dispatched (e : env)
    (ffmpeg line t1 t2 : string) (w : world) :
  split " " (strip line) = [t1; t2] ->
  (valid_url e t2 = true -> t1 <> "a" ->
     loop_body e ffmpeg line w
     = (Ok tt, World (files w) (ticks w) (log w ++ [EvBadLine BadFlag line])))
  /\ (valid_url e t2 = false ->
      classify_line (valid_url e) line = Ok (Call (str_of_list [t1; t2]) false)
      /\ exists w1,
           loop_body e ffmpeg line w = (Ok tt, w1)
           /\ head (new_events w w1) = Some (EvPrint (str_of_list [t1; t2] +:+ nl))
           /\ ticks w1 = S (ticks w)).
Proof.
  intros Htok. split; intros Hv.
  - intros Hne. apply loop_body_bad.
    rewrite classify_line_tokens, Htok, Hv.
    apply String.eqb_neq in Hne. now rewrite Hne.
  - assert (Hc : classify_line (valid_url e) line
                 = Ok (Call (str_of_list [t1; t2]) false)).
    { now rewrite classify_line_tokens, Htok, Hv. }
    split; [exact Hc|]. now apply (loop_body_call e ffmpeg line _ false).
Qed.

Lemma two_token_line_with_invalid_url_is_dispatched_witness :
  classify_line sample_valid_url ("b notaurl" +:+ nl)
  = Ok (Call "['b', 'notaurl']" false)
  /\ exists w1,
       loop_body (sample_env 0 sample_clock []) "ffmpeg.exe"
         ("b notaurl" +:+ nl) empty_world = (Ok tt, w1)
       /\ head (new_events empty_world w1) = Some (EvPrint ("['b', 'notaurl']" +:+ nl))
       /\ ticks w1 = 1.
Proof.
  exact (proj2 (two_token_line_with_invalid_url_is_dispatched
                  (sample_env 0 sample_clock []) "ffmpeg.exe"
                  ("b notaurl" +:+ nl) "b" "notaurl" empty_world eq_refl)
               eq_refl).
Defined.

(** C5 (as stated, refuted): the tokens the program counts are not the
    white-space tokens of the line. A line with no white-space token is
    rejected, but by the URL check and not for its token count; a line
    with three white-space tokens, two of them joined by a tab, counts as
    two tokens and is dispatched. *)
Lemma whitespace_token_count_does_not_decide :
  (whitespace_tokens (strip nl) = []
   /\ classify_line sample_valid_url nl = Ok (Bad BadUrl))
  /\ (whitespace_tokens (strip ("x" +:+ tab +:+ "y z" +:+ nl)) = ["x"; "y"; "z"]
      /\ split " " (strip ("x" +:+ tab +:+ "y z" +:+ nl)) = ["x" +:+ tab +:+ "y"; "z"]
      /\ classify_line sample_valid_url ("x" +:+ tab +:+ "y z" +:+ nl)
         = Ok (Call "['x\ty', 'z']" false)).
Proof. vm_compute. auto. Qed.

(** C5 (amended): the stripped line is split on the single space
    character: the tokens hold no space, joined by spaces they give the
    stripped line back, and there is at least one. Every line with more
    than two such tokens is rejected at the token-count check: the loop
    prints the bad-line message and does nothing else for that line (no
    clock reading, no file, no call of [download_from_youtube]). *)
Theorem more_than_two_space_tokens_rejected (e : env) (ffmpeg line : string)
    (w : world) :
  Forall (fun t => str_mem " " t = false) (split " " (strip line))
  /\ join " " (split " " (strip line)) = strip line
  /\ split " " (strip line) <> []
  /\ (2 < length (split " " (strip line)) ->
      classify_line (valid_url e) line = Ok (Bad TooManyTokens)
      /\ loop_body e ffmpeg line w
         = (Ok tt, World (files w) (ticks w)
                     (log w ++ [EvBadLine TooManyTokens line]))).
Proof.
  split; [apply split_tokens_free_of_sep|].
  split; [apply (join_split " ")|].
  split; [apply split_nonempty|].
  intros Hlen.
  assert (Hc : classify_line (valid_url e) line = Ok (Bad TooManyTokens)).
  { rewrite classify_line_tokens.
    destruct (split " " (strip line)) as [|t1 [|t2 [|t3 ts]]];
      cbn in Hlen; try lia; reflexivity. }
  split; [exact Hc | now apply loop_body_bad].
Qed.

Lemma more_than_two_space_tokens_rejected_witness :
  split " " (strip ("a  https://example.com/video" +:+ nl))
  = ["a"; ""; "https://example.com/video"]
  /\ classify_line sample_valid_url ("a  https://example.com/video" +:+ nl)
     = Ok (Bad TooManyTokens)
  /\ loop_body (sample_env 0 sample_clock []) "ffmpeg.exe"
       ("a  https://example.com/video" +:+ nl) empty_world
     = (Ok tt, World ∅ 0 [EvBadLine TooManyTokens ("a  https://example.com/video" +:+ nl)]).
Proof.
  split; [reflexivity|].
  apply (more_than_two_space_tokens_rejected (sample_env 0 sample_clock [])
           "ffmpeg.exe" ("a  https://example.com/video" +:+ nl) empty_world).
  vm_compute. lia.
Defined.

(** C10: splitting the stripped line on the space character never gives
    the empty list, so the loop never reaches the zero-token rejection of
    line 46; a line made of white space only (or empty) has the single
    token [''] and, the validator refusing the empty string, is rejected
    by the URL check of line 62 and never dispatched. *)
Theorem zero_token_branch_unreachable (e : env) (ffmpeg line : string)
    (w : world) :
  split " " (strip line) <> []
  /\ classify_line (valid_url e) line <> Ok (Bad NoTokens)
  /\ (str_forall isspace line = true -> valid_url e "" = false ->
      split " " (strip line) = [""]
      /\ loop_body e ffmpeg line w
         = (Ok tt, World (files w) (ticks w) (log w ++ [EvBadLine BadUrl line]))).
Proof.
  split; [apply split_nonempty|]. split.
  - rewrite classify_line_tokens.
    pose proof (split_nonempty " " (strip line)) as Hne.
    destruct (split " " (strip line)) as [|t1 [|t2 [|t3 ts]]]; [congruence|..].
    + destruct (valid_url e t1); discriminate.
    + destruct (valid_url e t2); [destruct (String.eqb t1 "a")|]; discriminate.
    + discriminate.
  - intros Hsp Hv. rewrite (strip_all_space line Hsp).
    split; [reflexivity|]. apply loop_body_bad.
    rewrite classify_line_tokens, (strip_all_space line Hsp). cbn [split].
    now rewrite Hv.
Qed.

Lemma zero_token_branch_unreachable_witness :
  split " " (strip ("  " +:+ tab +:+ nl)) = [""]
  /\ loop_body (sample_env 0 sample_clock []) "ffmpeg.exe"
       ("  " +:+ tab +:+ nl) empty_world
     = (Ok tt, World ∅ 0 [EvBadLine BadUrl ("  " +:+ tab +:+ nl)]).
Proof.
  exact (proj2 (proj2 (zero_token_branch_unreachable
                         (sample_env 0 sample_clock []) "ffmpeg.exe"
                         ("  " +:+ tab +:+ nl) empty_world))
               eq_refl eq_refl).
Defined.

(** C4: whatever the lines of the input file, the batch returns without
    raising and closes exactly one outcome per line; every line is
    reached, its iteration returns, and the lines after it are processed
    from the state it leaves; when the job of a line raises, the loop
    catches the exception and prints its message. *)
Theorem batch_never_aborts (e : env) (path ffmpeg : string)
    (lines : list string) (w : world) :
  open_lines e path = Ok lines ->
  let run := download_youtube_videos_from_file e path ffmpeg w in
  fst run = Ok tt
  /\ length (outcomes (new_events w (snd run))) = length lines
  /\ forall before line after, lines = before ++ line :: after ->
       exists w1 w2,
         for_each before (loop_body e ffmpeg) w = (Ok tt, w1)
         /\ loop_body e ffmpeg line w1 = (Ok tt, w2)
         /\ for_each after (loop_body e ffmpeg) w2 = (Ok tt, snd run)
         /\ forall url ao x wj,
              classify_line (valid_url e) line = Ok (Call url ao) ->
              download_from_youtube e url ffmpeg ao w1 = (Raise x, wj) ->
              w2 = World (files wj) (ticks wj) (log wj ++ [EvCaught x])
              /\ console_text (EvCaught x) = Some (exn_msg x +:+ nl).
Proof.
  intros Hopen run. subst run.
  destruct (for_each_loop_inv e ffmpeg lines w)
    as (w' & evs & Hrun & Hlog & Hout & _).
  assert (Hbatch : download_youtube_videos_from_file e path ffmpeg w = (Ok tt, w')).
  { now rewrite (batch_of_lines e path ffmpeg lines w Hopen). }
  rewrite Hbatch. cbn [fst snd].
  split; [reflexivity|]. split.
  { now rewrite (new_events_app _ _ _ Hlog). }
  intros before line after ->.
  destruct (for_each_loop_inv e ffmpeg before w) as (w1 & evs1 & Hb & _).
  destruct (loop_body_inv e ffmpeg line w1) as (w2 & evs2 & Hl & _).
  exists w1, w2. split; [exact Hb|]. split; [exact Hl|]. split.
  - rewrite for_each_app, Hb in Hrun. cbn [for_each] in Hrun.
    unfold bind at 1 in Hrun. now rewrite Hl in Hrun.
  - intros url ao exc wj Hc Hj. split; [|reflexivity].
    unfold loop_body, bind, lift, try_except, emit in Hl.
    rewrite Hc, Hj in Hl. now inversion Hl.
Qed.

Lemma batch_never_aborts_witness :
  let e := sample_env 0 sample_clock
             ["not a url at all" +:+ nl; "a https://example.com/video" +:+ nl; nl] in
  let run := download_youtube_videos_from_file e "in.txt" "ffmpeg.exe" empty_world in
  fst run = Ok tt
  /\ length (outcomes (new_events empty_world (snd run))) = 3.
Proof.
  intros e run.
  destruct (batch_never_aborts e "in.txt" "ffmpeg.exe" _ empty_world eq_refl)
    as (H1 & H2 & _).
  exact (conj H1 H2).
Defined.

(** C3 (as stated, refuted): the transcoder exits with status 1 while
    muxing, and the job returns normally, nothing is raised, and both
    temporary inputs have been deleted. *)
Lemma nonzero_exit_raises_nothing :
  let e := sample_env 1 sample_clock [] in
  let run := download_from_youtube e "https://example.com/video" "ffmpeg.exe"
               false empty_world in
  (exists cmd p,
      spawns (log (snd run)) = [cmd] /\ Popen e cmd = Ok p
      /\ returncode p = 1%Z)
  /\ fst run = Ok tt
  /\ downloads (log (snd run))
     = ["audio_2024-03-09_21-05-07.mp4"; "video_2024-03-09_21-05-07.mp4"]
  /\ elements (files (snd run)) = [].
Proof.
  cbv zeta. split; [|vm_compute; auto].
  eexists _, _. split; [vm_compute; reflexivity|]. split; reflexivity.
Qed.

(** C3 (amended): the exit status of the transcoder is never read: a
    job behaves the same whatever status the process exits with. When
    the transcoder was started and its output was read to the end, the
    job returns without raising, and the temporary inputs are deleted
    before it returns: the audio file in both modes, the video file only
    when muxing. When reading the output raises, that exception leaves
    the job and the temporary inputs stay. *)
Theorem transcode_ignores_exit_status (f : Z -> Z) (e : env)
    (url ffmpeg : string) (ao : bool) (w : world) :
  let run := download_from_youtube e url ffmpeg ao w in
  let ts := strftime (now e (ticks w)) in
  download_from_youtube (with_exit_status f e) url ffmpeg ao w = run
  /\ forall cmd, cmd ∈ spawns (new_events w (snd run)) ->
       exists p,
         Popen e cmd = Ok p
         /\ match proc_stdout_error p with
            | None =>
                fst run = Ok tt
                /\ files (snd run)
                   = files w ∖ (if ao then {[audio_filename_of ts]}
                                else {[audio_filename_of ts;
                                       video_filename_of ts]})
            | Some x =>
                fst run = Raise x
                /\ files (snd run)
                   = (if ao then {[audio_filename_of ts]}
                      else {[audio_filename_of ts; video_filename_of ts]})
                     ∪ files w
            end.
Proof.
  intros run ts. split; [apply exit_status_unread|].
  intros cmd Hcmd. apply job_spawn in Hcmd.
  destruct Hcmd
    as (yt & t & q & a & abr_text & _ & _ & _ & _ & _ & _ & _ & _ & p & Hp & Hr).
  exists p. split; [exact Hp|]. subst run ts. unfold temp_files in Hr.
  destruct (proc_stdout_error p); now destruct ao.
Qed.

Lemma transcode_ignores_exit_status_witness :
  let e := sample_env 1 sample_clock [] in
  let run := download_from_youtube e "https://example.com/video" "ffmpeg.exe"
               false empty_world in
  download_from_youtube (with_exit_status (fun _ => 0%Z) e)
    "https://example.com/video" "ffmpeg.exe" false empty_world = run
  /\ fst run = Ok tt
  /\ files (snd run)
     = files empty_world ∖ {[audio_filename_of (strftime (sample_clock 0));
                             video_filename_of (strftime (sample_clock 0))]}.
Proof.
  intros e run.
  destruct (transcode_ignores_exit_status (fun _ => 0%Z) e
              "https://example.com/video" "ffmpeg.exe" false empty_world)
    as [H1 H2].
  split; [exact H1|].
  destruct (H2 (job_command "ffmpeg.exe" false (strftime (sample_clock 0))
                  (sanitize_title "My clip 1/2") "160kbps"))
    as (p & Hp & Hcase).
  { vm_compute. left. }
  injection Hp as <-. exact Hcase.
Defined.

(** C6: in every job that reaches the transcoder, the stream whose
    audio was downloaded is an audio-only stream of the catalogue whose
    numeric bitrate is the highest among the audio-only streams (every
    such stream with an [abr] holding a number); the digits of its [abr]
    followed by [k] are the argument that follows [-b:a] in the command
    of the transcoder. *)
Theorem highest_bitrate_audio_is_selected (e : env) (url ffmpeg : string)
    (ao : bool) (w : world) (cmd : list string) :
  cmd ∈ spawns (new_events w (snd (download_from_youtube e url ffmpeg ao w))) ->
  exists yt q a abr_text,
    YouTube e url = Ok yt /\ streams yt = Ok q
    /\ a ∈ q /\ only_audio a = true /\ abr a = Some abr_text
    /\ ((forall s, s ∈ q -> only_audio s = true -> is_Some (abr s) ->
           is_Some (bitrate s)) ->
        exists ba, bitrate a = Some ba
          /\ forall s b, s ∈ q -> only_audio s = true -> bitrate s = Some b ->
               (b <= ba)%N)
    /\ exists pre out,
         cmd = ffmpeg :: pre ++ ["-b:a"; str_filter isdigit abr_text +:+ "k"; out]
         /\ "-b:a" ∉ pre.
Proof.
  intros Hcmd. apply job_spawn in Hcmd.
  destruct Hcmd as (yt & t & q & a & abr_text & Hyt & _ & Hq & Hsel & Habr & Hc & _).
  exists yt, q, a, abr_text.
  apply order_by_first_max in Hsel as (Ha & Hattr & Hmax).
  apply elem_of_filter_bool in Ha as [Haq Hao].
  repeat (split; [assumption|]). split.
  - intros Hnum.
    destruct (Hnum a Haq Hao Hattr) as [ba Hba]. exists ba. split; [exact Hba|].
    intros s b Hs Hso Hb.
    assert (Hle : (default 0 (int_key abr s) <= default 0 (int_key abr a))%N).
    { apply Hmax.
      - intros s' [Hs' Hso']%elem_of_filter_bool. now apply Hnum.
      - apply elem_of_filter_bool. auto.
      - now apply bitrate_needs_abr in Hb. }
    unfold bitrate in Hb, Hba. now rewrite Hb, Hba in Hle.
  - subst cmd. unfold job_command, mux_command, audio_command, audio_bitrate_of,
      digits_of.
    destruct ao; cbn [negb].
    + eexists ["-y"; "-i"; audio_filename_of (strftime (now e (ticks w)))], _.
      split; [reflexivity|].
      rewrite !not_elem_of_cons. repeat split; try discriminate.
      apply not_elem_of_nil.
    + eexists ["-y"; "-i"; video_filename_of (strftime (now e (ticks w)));
              "-i"; audio_filename_of (strftime (now e (ticks w)));
              "-c:v"; "hevc_nvenc"; "-preset"; "fast"; "-profile:v"; "main";
              "-c:a"; "aac"], _.
      split; [reflexivity|].
      rewrite !not_elem_of_cons. repeat split; try discriminate.
      apply not_elem_of_nil.
Qed.

Lemma highest_bitrate_audio_is_selected_witness :
  exists a out,
    a ∈ sample_streams /\ abr a = Some "160kbps" /\ bitrate a = Some 160%N
    /\ (forall s b, s ∈ sample_streams -> only_audio s = true ->
          bitrate s = Some b -> (b <= 160)%N)
    /\ job_command "ffmpeg.exe" true (strftime (sample_clock 0))
         (sanitize_title "My clip 1/2") "160kbps"
       = ["ffmpeg.exe"; "-y"; "-i"; "audio_2024-03-09_21-05-07.mp4";
          "-b:a"; "160k"; out].
Proof.
  destruct (highest_bitrate_audio_is_selected (sample_env 0 sample_clock [])
              "https://example.com/video" "ffmpeg.exe" true empty_world
              (job_command "ffmpeg.exe" true (strftime (sample_clock 0))
                 (sanitize_title "My clip 1/2") "160kbps"))
    as (yt & q & a & abr_text & Hyt & Hq & Ha & Hao & Habr & Hmax & _).
  { vm_compute. left. }
  cbn in Hyt. injection Hyt as <-. cbn in Hq. injection Hq as <-.
  destruct Hmax as (ba & Hba & Hle).
  { intros s Hs Hso _. unfold sample_streams in Hs.
    repeat (apply elem_of_cons in Hs as [->|Hs]); try discriminate;
      try (eexists; reflexivity). inversion Hs. }
  assert (Hb160 : (160 <= ba)%N).
  { apply (Hle (mk_audio "160kbps")); [| reflexivity | reflexivity].
    apply list_elem_of_In. cbn. auto 10. }
  assert (Habr160 : abr a = Some "160kbps" /\ ba = 160%N).
  { unfold sample_streams in Ha.
    repeat (apply elem_of_cons in Ha as [->|Ha]); try discriminate;
      try (vm_compute in Hba; injection Hba as <-; lia).
    - vm_compute in Hba. injection Hba as <-. split; reflexivity.
    - inversion Ha. }
  destruct Habr160 as [Habr160 ->].
  exists a, "My_clip_1_2_2024-03-09_21-05-07.mp3".
  split; [exact Ha|]. split; [exact Habr160|]. split; [exact Hba|].
  split; [exact Hle | reflexivity].
Defined.

(** The worked example of the specification: among the bitrates
    96kbps, 160kbps and 128kbps the 160kbps stream is chosen and its
    canonical bitrate is 160k. *)
Example sample_bitrate :
  (first (desc (order_by abr (List.filter only_audio
      [mk_audio "96kbps"; mk_audio "160kbps"; mk_audio "128kbps"])))
   = Some (mk_audio "160kbps"))
  /\ audio_bitrate_of "160kbps" = "160k".
Proof. split; reflexivity. Qed.

(** C7: in every job, the transcoder is started once, with the
    executable path followed by exactly the template of the mode; the
    file names are those of the files the job downloaded, the bitrate is
    the canonical bitrate of the selected audio stream and the output
    file is the one named after the title. *)
Theorem transcoder_arguments_follow_template (e : env) (url ffmpeg : string)
    (ao : bool) (w : world) (cmd : list string) :
  let w' := snd (download_from_youtube e url ffmpeg ao w) in
  let ts := strftime (now e (ticks w)) in
  cmd ∈ spawns (new_events w w') ->
  exists videoFile audioFile bitrate outputFile,
    cmd = ffmpeg ::
          (if ao
           then ["-y"; "-i"; audioFile; "-b:a"; bitrate; outputFile]
           else ["-y"; "-i"; videoFile; "-i"; audioFile;
                 "-c:v"; "hevc_nvenc"; "-preset"; "fast";
                 "-profile:v"; "main"; "-c:a"; "aac";
                 "-b:a"; bitrate; outputFile])
    /\ spawns (new_events w w') = [cmd]
    /\ downloads (new_events w w')
       = (if ao then [audioFile] else [audioFile; videoFile])
    /\ videoFile = "video_" +:+ ts +:+ ".mp4"
    /\ audioFile = "audio_" +:+ ts +:+ ".mp4"
    /\ exists yt t q a abr_text,
         YouTube e url = Ok yt /\ title yt = Ok t /\ streams yt = Ok q
         /\ first (desc (order_by abr (List.filter only_audio q))) = Some a
         /\ abr a = Some abr_text
         /\ bitrate = audio_bitrate_of abr_text
         /\ outputFile = output_filename_of (sanitize_title t) ts ao.
Proof.
  intros w' ts Hcmd. subst w'. apply job_spawn in Hcmd.
  destruct Hcmd as (yt & t & q & a & abr_text & Hyt & Ht & Hq & Hsel & Habr
                    & Hc & Hsp & Hdl & _).
  fold ts in Hc, Hdl.
  exists (video_filename_of ts), (audio_filename_of ts),
    (audio_bitrate_of abr_text),
    (output_filename_of (sanitize_title t) ts ao).
  split; [subst cmd; now destruct ao|].
  split; [exact Hsp|]. split; [rewrite Hdl; now destruct ao|].
  split; [reflexivity|]. split; [reflexivity|].
  exists yt, t, q, a, abr_text. auto 10.
Qed.

Lemma transcoder_arguments_follow_template_witness :
  exists videoFile audioFile bitrate outputFile : string,
    ["ffmpeg.exe"; "-y"; "-i"; "audio_2024-03-09_21-05-07.mp4"; "-b:a"; "160k";
     "My_clip_1_2_2024-03-09_21-05-07.mp3"]
    = "ffmpeg.exe" :: ["-y"; "-i"; audioFile; "-b:a"; bitrate; outputFile].
Proof.
  destruct (transcoder_arguments_follow_template (sample_env 0 sample_clock [])
              "https://example.com/video" "ffmpeg.exe" true empty_world
              ["ffmpeg.exe"; "-y"; "-i"; "audio_2024-03-09_21-05-07.mp4";
               "-b:a"; "160k"; "My_clip_1_2_2024-03-09_21-05-07.mp3"])
    as (v & a & b & o & H & _).
  - vm_compute. left.
  - exists v, a, b, o. exact H.
Defined.

(** C8 (as stated, refuted): a backslash, the path separator of the
    platform of [ffmpeg.exe], is not replaced: the title [AC\DC live]
    gives an output file name that still holds it. *)
Lemma backslash_in_title_is_kept :
  let e := with_title "AC\DC live" (sample_env 0 sample_clock []) in
  let run := download_from_youtube e "https://example.com/video" "ffmpeg.exe"
               false empty_world in
  exists cmd,
    spawns (new_events empty_world (snd run)) = [cmd]
    /\ last cmd = Some "AC\DC_live_2024-03-09_21-05-07.mkv"
    /\ str_mem backslash "AC\DC_live_2024-03-09_21-05-07.mkv" = true.
Proof. cbv zeta. eexists. split; [vm_compute; reflexivity|]. split; reflexivity. Qed.

(** C8 (amended): in every job that reaches the transcoder, the output
    file (the last argument of the command) is named
    [<sanitizedTitle>_<YYYY-MM-DD_HH-MM-SS>.<ext>]: the extension is [mp3]
    for an audio-only job and [mkv] otherwise; the time stamp has the
    stated shape and stands for the date and time the job read from the
    clock when it started; and the sanitized title is the title with
    every space and every slash replaced by an underscore, all other
    characters kept, the backslash included. *)
Theorem output_file_name (e : env) (url ffmpeg : string) (ao : bool)
    (w : world) (cmd : list string) :
  cmd ∈ spawns (new_events w (snd (download_from_youtube e url ffmpeg ao w))) ->
  exists yt t,
    YouTube e url = Ok yt /\ title yt = Ok t
    /\ last cmd = Some (sanitize_title t +:+ "_" +:+ strftime (now e (ticks w))
                        +:+ (if ao then ".mp3" else ".mkv"))
    /\ timestamp_shape (strftime (now e (ticks w))) = true
    /\ (datetime_ok (now e (ticks w)) ->
        timestamp_reading (strftime (now e (ticks w))) = Some (now e (ticks w)))
    /\ String.length (sanitize_title t) = String.length t
    /\ forall i c, String.get i t = Some c ->
         String.get i (sanitize_title t)
         = Some (if Ascii.eqb c " " || Ascii.eqb c "/" then "_"%char else c).
Proof.
  intros Hcmd. apply job_spawn in Hcmd.
  destruct Hcmd as (yt & t & q & a & abr_text & Hyt & Ht & _ & _ & _ & Hc & _).
  exists yt, t. split; [exact Hyt|]. split; [exact Ht|]. split.
  { subst cmd. now destruct ao. }
  split; [apply strftime_shape|]. split; [apply strftime_reading|]. split.
  { unfold sanitize_title, replace_char. now rewrite !str_map_length. }
  intros i c Hget. now rewrite sanitize_title_get, Hget.
Qed.

Lemma output_file_name_witness :
  last (job_command "ffmpeg.exe" false (strftime (sample_clock 0))
          (sanitize_title "My clip 1/2") "160kbps")
  = Some "My_clip_1_2_2024-03-09_21-05-07.mkv"
  /\ timestamp_reading "2024-03-09_21-05-07" = Some (Datetime 2024 3 9 21 5 7)
  /\ String.get 7 (sanitize_title "My clip 1/2") = Some "_"%char
  /\ String.get 9 (sanitize_title "My clip 1/2") = Some "_"%char
  /\ String.get 10 (sanitize_title "My clip 1/2") = Some "2"%char.
Proof.
  destruct (output_file_name (sample_env 0 sample_clock [])
              "https://example.com/video" "ffmpeg.exe" false empty_world
              (job_command "ffmpeg.exe" false (strftime (sample_clock 0))
                 (sanitize_title "My clip 1/2") "160kbps"))
    as (yt & t & Hyt & Ht & Hlast & _ & Hread & _ & Hget).
  { vm_compute. left. }
  injection Hyt as <-. injection Ht as <-.
  split; [exact Hlast|]. split.
  { apply Hread. unfold datetime_ok. cbn. lia. }
  split; [exact (Hget 7 " "%char eq_refl)|].
  split; [exact (Hget 9 "/"%char eq_refl) | exact (Hget 10 "2"%char eq_refl)].
Defined.

Example sample_output_name :
  output_filename_of (sanitize_title "My clip 1/2") (strftime (sample_clock 0)) false
  = "My_clip_1_2_2024-03-09_21-05-07.mkv".
Proof. reflexivity. Qed.

(** C9 (as stated, refuted): two jobs of one batch that read the same
    clock value, to the second, download to the same temporary paths. *)
Lemma same_second_jobs_share_temp_names :
  let e := sample_env 0 (fun _ => sample_clock 0)
             ["https://example.com/one" +:+ nl; "https://example.com/two" +:+ nl] in
  let run := download_youtube_videos_from_file e "in.txt" "ffmpeg.exe" empty_world in
  fst run = Ok tt
  /\ downloads (log (snd run))
     = ["audio_2024-03-09_21-05-07.mp4"; "video_2024-03-09_21-05-07.mp4";
        "audio_2024-03-09_21-05-07.mp4"; "video_2024-03-09_21-05-07.mp4"].
Proof. vm_compute. auto. Qed.

(** C9 (amended): the temporary paths of a job are the audio and the
    video path of the time stamp, to the second, read when the job
    starts, and so is every temporary path a batch writes. An audio path
    and a video path always differ, of one job or of two; the temporary
    paths of two jobs differ whenever their time stamps differ, and are
    the same when the time stamps are the same; two valid dates that
    differ give different time stamps. In a batch whose jobs all start
    at different time stamps, all the temporary paths written are
    pairwise different. *)
Theorem temp_names_distinct_when_timestamps_differ (e : env)
    (path ffmpeg : string) (w : world) :
  let w' := snd (download_youtube_videos_from_file e path ffmpeg w) in
  (forall url ao w0 f,
     f ∈ downloads (new_events w0 (snd (download_from_youtube e url ffmpeg ao w0))) ->
     named_at e (ticks w0) f)
  /\ (forall f, f ∈ downloads (new_events w w') ->
        exists i, ticks w <= i < ticks w' /\ named_at e i f)
  /\ (forall i j, audio_filename_of (strftime (now e i))
                  <> video_filename_of (strftime (now e j)))
  /\ (forall i j f g, named_at e i f -> named_at e j g ->
        strftime (now e i) <> strftime (now e j) -> f <> g)
  /\ (forall i j, strftime (now e i) = strftime (now e j) ->
        forall f, named_at e i f <-> named_at e j f)
  /\ (forall d1 d2, datetime_ok d1 -> datetime_ok d2 -> d1 <> d2 ->
        strftime d1 <> strftime d2)
  /\ ((forall i j, ticks w <= i -> i < j -> j < ticks w' ->
         strftime (now e i) <> strftime (now e j)) ->
      NoDup (downloads (new_events w w'))).
Proof.
  intros w'. subst w'.
  split.
  { intros url ao w0 f.
    destruct (download_from_youtube e url ffmpeg ao w0) as [r w1] eqn:Hj.
    apply job_inv in Hj. cbv zeta in Hj.
    destruct Hj as (evs & Hlog & _ & _ & _ & Hdl & _). cbn [snd].
    rewrite (new_events_app _ _ _ Hlog). unfold named_at.
    destruct Hdl as [-> | [-> | ->]];
      rewrite ?elem_of_cons, ?elem_of_nil; tauto. }
  assert (Hbatch : exists evs,
            log (snd (download_youtube_videos_from_file e path ffmpeg w))
            = log w ++ evs
            /\ (forall f, f ∈ downloads evs ->
                  exists i,
                    ticks w <= i
                    < ticks (snd (download_youtube_videos_from_file e path ffmpeg w))
                    /\ named_at e i f)
            /\ ((forall i j, ticks w <= i -> i < j ->
                   j < ticks (snd (download_youtube_videos_from_file e path ffmpeg w)) ->
                   strftime (now e i) <> strftime (now e j)) ->
                NoDup (downloads evs))).
  { rewrite batch_run. destruct (open_file e path) as [file|x]; cbn [snd].
    - destruct (for_each_loop_inv e ffmpeg (file_lines file) w)
        as (w' & evs & -> & Hlog & _ & _ & Hin & Hnd).
      exists evs. auto.
    - exists []. rewrite app_nil_r. split; [reflexivity|]. split.
      + intros f Hf. inversion Hf.
      + intros _. constructor. }
  destruct Hbatch as (evs & Hlog & Hin & Hnd).
  rewrite (new_events_app _ _ _ Hlog).
  split; [exact Hin|].
  split; [intros i j; apply audio_video_names_differ|].
  split.
  { intros i j f g Hf Hg Hne ->. exact (named_at_distinct e i j g Hne Hf Hg). }
  split.
  { intros i j Heq f. unfold named_at. now rewrite Heq. }
  split; [|exact Hnd].
  intros d1 d2 H1 H2 Hne Heq. now apply Hne, strftime_inj.
Qed.

Lemma temp_names_distinct_when_timestamps_differ_witness :
  let e := sample_env 0 sample_clock
             ["https://example.com/one" +:+ nl; "https://example.com/two" +:+ nl] in
  let w' := snd (download_youtube_videos_from_file e "in.txt" "ffmpeg.exe"
                   empty_world) in
  NoDup (downloads (new_events empty_world w')).
Proof.
  intros e w'.
  apply (temp_names_distinct_when_timestamps_differ e "in.txt" "ffmpeg.exe"
           empty_world).
  change (ticks (snd (download_youtube_videos_from_file e "in.txt" "ffmpeg.exe"
                        empty_world))) with 2.
  intros i j Hi Hij Hj.
  assert (i = 0) as -> by lia. assert (j = 1) as -> by lia.
  discriminate.
Defined.

(** * Further properties of the program *)

(** ** Every run of a job *)

Lemma files_after_none (F : gset string) : list_to_set [] ∪ F = F.
Proof.
  apply set_eq. intros x.
  rewrite elem_of_union, elem_of_list_to_set, elem_of_nil. tauto.
Qed.

Lemma files_after_one (F : gset string) (a : string) :
  {[a]} ∪ F = list_to_set [a] ∪ F.
Proof.
  apply set_eq. intros x.
  rewrite !elem_of_union, elem_of_list_to_set, elem_of_singleton,
    list_elem_of_singleton. tauto.
Qed.

Lemma files_after_two (F : gset string) (a v : string) :
  {[v]} ∪ ({[a]} ∪ F) = list_to_set [a; v] ∪ F.
Proof.
  apply set_eq. intros x.
  rewrite !elem_of_union, elem_of_list_to_set, !elem_of_singleton,
    !elem_of_cons, elem_of_nil. tauto.
Qed.

Lemma selected_has_attribute (attr : Stream -> option string)
    (q : list Stream) (a : Stream) :
  first (desc (order_by attr q)) = Some a -> attr a <> None.
Proof.
  intros H. apply order_by_first_max in H as (_ & [s Hs] & _). congruence.
Qed.

(** Every run of the body of a job, in full. *)
Lemma body_cases e url ffmpeg ao w r w' :
  download_from_youtube_body e url ffmpeg ao w = (r, w') ->
  let ts := strftime (now e (ticks w)) in
  ticks w' = S (ticks w)
  /\ match r with
     | Ok _ =>
         exists t abr_text p,
           job_ready e url ffmpeg ao ts t abr_text p
           /\ files w' = files w ∖ temp_files ao ts
           /\ log w' = log w ++ body_trace url ffmpeg ao ts t abr_text p
     | Raise x =>
         exists evs,
           job_failure e url ffmpeg ao ts x evs
           /\ files w' = list_to_set (downloads evs) ∪ files w
           /\ log w' = log w ++ evs
     end.
Proof.
  intros H ts. unfold_ops. cbv beta in H.
  pose proof (audio_video_names_differ ts ts) as Hav. subst ts.
  repeat exec_step.
  all: cbn [files ticks log] in *.
  all: try match goal with
           | n : _ ∉ _ |- _ => exfalso; clear -n Hav; set_solver
           end.
  all: try match goal with
           | H1 : first (desc (order_by abr _)) = Some ?a, H2 : abr ?a = None |- _ =>
               exfalso; exact (selected_has_attribute _ _ _ H1 H2)
           end.
  all: split; [reflexivity|].
  all: destruct ao; try discriminate.
  all: try (eexists _, _, _; split;
            [ eapply Ready; try eassumption; first [discriminate | eauto]
            | split;
              [ unfold temp_files; cbn [negb];
                first [apply remove_after_download_both
                      | apply remove_after_download]
              | unfold body_trace; rewrite <- ?app_assoc; reflexivity ] ]).
  all: eexists; split;
    [ first [ eapply FailYouTube; eassumption
            | eapply FailTitle; eassumption
            | eapply FailStreams; eassumption
            | eapply FailNoAudio; eassumption
            | eapply FailAudioDownload; eassumption
            | eapply FailNoVideo; first [eassumption | reflexivity]
            | eapply FailVideoDownload; first [eassumption | reflexivity]
            | solve [eapply FailPopen; try eassumption;
                     first [discriminate | eauto]]
            | solve [eapply FailForward; try eassumption;
                     first [discriminate | eauto]] ]
    | split;
      [ rewrite ?downloads_app, ?downloads_prints;
        cbn [downloads omap option_bind mbind list_omap app];
        first [ symmetry; apply files_after_none
              | apply files_after_one
              | apply files_after_two ]
      | rewrite <- ?app_assoc; reflexivity ] ].
Qed.

Lemma world_eq (w : world) (F : gset string) (n : nat) (l : list event) :
  files w = F -> ticks w = n -> log w = l -> w = World F n l.
Proof. destruct w; cbn; congruence. Qed.

(** Every run of a job, in full: the report of the elapsed time closes
    the log of a job that returns. *)
Lemma job_cases e url ffmpeg ao w r w' :
  download_from_youtube e url ffmpeg ao w = (r, w') ->
  let ts := strftime (now e (ticks w)) in
  ticks w' = S (ticks w)
  /\ match r with
     | Ok _ =>
         exists t abr_text p,
           job_ready e url ffmpeg ao ts t abr_text p
           /\ files w' = files w ∖ temp_files ao ts
           /\ log w' = log w ++ body_trace url ffmpeg ao ts t abr_text p
                       ++ [EvTiming "download_from_youtube"]
     | Raise x =>
         exists evs,
           job_failure e url ffmpeg ao ts x evs
           /\ files w' = list_to_set (downloads evs) ∪ files w
           /\ log w' = log w ++ evs
     end.
Proof.
  intros H ts. subst ts.
  unfold download_from_youtube, timing_decorator in H. unfold bind at 1 in H.
  destruct (download_from_youtube_body e url ffmpeg ao w) as [rb wb] eqn:Hb.
  apply body_cases in Hb. cbv zeta in Hb. destruct Hb as [Htick Hb].
  destruct rb as [[]|x].
  - unfold bind, emit, ret in H. simplify_eq. cbn [files ticks log].
    split; [exact Htick|].
    destruct Hb as (t & abr_text & p & Hready & Hf & Hl).
    exists t, abr_text, p. rewrite Hl, <- app_assoc. auto.
  - simplify_eq. auto.
Qed.

(** Two readings of the same value of the environment agree. *)
Ltac same_reads :=
  repeat match goal with
         | H1 : ?t = ?a, H2 : ?t = ?b |- _ =>
             rewrite H1 in H2;
             first [discriminate H2 | injection H2 as <- | clear H2]
         end.

Lemma job_ready_unique e url ffmpeg ao ts t abr_text p t' abr_text' p' :
  job_ready e url ffmpeg ao ts t abr_text p ->
  job_ready e url ffmpeg ao ts t' abr_text' p' ->
  t = t' /\ abr_text = abr_text' /\ p = p'.
Proof.
  intros [yt t0 q a abr0 p0 Hyt Ht Hq Ha Habr Hdl Hv Hp]
         [yt' t1 q' a' abr1 p1 Hyt' Ht' Hq' Ha' Habr' Hdl' Hv' Hp'].
  same_reads. auto.
Qed.

Lemma job_ready_not_failure e url ffmpeg ao ts t abr_text p x evs :
  job_ready e url ffmpeg ao ts t abr_text p ->
  job_failure e url ffmpeg ao ts x evs -> False.
Proof.
  intros [yt t0 q a abr0 p0 Hyt Ht Hq Ha Habr Hdl Hv Hp] Hfail.
  inversion Hfail; subst; same_reads;
    try match goal with
        | Hao : false = false -> _ |- _ =>
            destruct (Hao eq_refl) as (v' & Hv1 & Hv2); same_reads
        end.
Qed.

Lemma removes_app l1 l2 : removes (l1 ++ l2) = removes l1 ++ removes l2.
Proof. apply omap_app. Qed.

Lemma removes_prints l : removes (map EvPrint l) = [].
Proof. induction l; simpl; auto. Qed.

(** The last thing in the log when reading the output of the transcoder
    raises: a line of the output, or the start of the process. *)
Lemma last_forwarded (pre : list event) (c l : list string) :
  exists ev,
    last (pre ++ [EvSpawn c] ++ map EvPrint l) = Some ev
    /\ is_outcome ev = false.
Proof.
  destruct l as [|x l _] using rev_ind.
  - exists (EvSpawn c). cbn [map]. rewrite app_nil_r, last_snoc. auto.
  - exists (EvPrint x). rewrite map_app. cbn [map].
    rewrite !app_assoc, last_snoc. auto.
Qed.

Lemma job_failure_shape e url ffmpeg ao ts x evs :
  job_failure e url ffmpeg ao ts x evs ->
  removes evs = [] /\ outcomes evs = []
  /\ (downloads evs = [] \/ downloads evs = [audio_filename_of ts]
      \/ ao = false
         /\ downloads evs = [audio_filename_of ts; video_filename_of ts])
  /\ exists ev, last evs = Some ev /\ is_outcome ev = false.
Proof.
  intros H. inversion H; subst.
  1-8: try destruct ao;
    (split; [reflexivity|]); (split; [reflexivity|]);
    (split; [cbn; auto|]); eexists; split; reflexivity.
  rewrite !removes_app, !outcomes_app, !downloads_app,
    removes_prints, outcomes_prints, downloads_prints.
  split; [now destruct ao|]. split; [now destruct ao|].
  split; [destruct ao; cbn; auto|].
  rewrite app_assoc. apply last_forwarded.
Qed.

(** ** Properties of one job *)

(** The run of a job whose inputs are all there. *)
Lemma ready_job_run (e : env) (url ffmpeg : string) (ao : bool)
    (w : world) (t abr_text : string) (p : process) :
  let ts := strftime (now e (ticks w)) in
  job_ready e url ffmpeg ao ts t abr_text p ->
  download_from_youtube e url ffmpeg ao w
  = (Ok tt,
     World (files w ∖ temp_files ao ts) (S (ticks w))
       (log w ++ body_trace url ffmpeg ao ts t abr_text p
        ++ [EvTiming "download_from_youtube"])).
Proof.
  intros ts Hready.
  destruct (download_from_youtube e url ffmpeg ao w) as [r w'] eqn:Hrun.
  apply job_cases in Hrun. cbv zeta in Hrun. destruct Hrun as [Htick Hrun].
  destruct r as [[]|x].
  - destruct Hrun as (t' & abr' & p' & Hready' & Hf & Hl).
    destruct (job_ready_unique _ _ _ _ _ _ _ _ _ _ _ Hready Hready')
      as (<- & <- & <-).
    f_equal. now apply world_eq.
  - destruct Hrun as (evs & Hfail & _).
    destruct (job_ready_not_failure _ _ _ _ _ _ _ _ _ _ Hready Hfail).
Qed.

(** X1: a job whose inputs are all there (the output of the transcoder
    being read to its end included) goes through its steps in the order
    of the source, and ends with the temporary files deleted: the exact
    run. *)
Theorem successful_job_run (e : env) (url ffmpeg : string) (ao : bool)
    (w : world) (t abr_text : string) (p : process) :
  let ts := strftime (now e (ticks w)) in
  job_ready e url ffmpeg ao ts t abr_text p ->
  download_from_youtube e url ffmpeg ao w
  = (Ok tt,
     World (files w ∖ temp_files ao ts) (S (ticks w))
       (log w ++ body_trace url ffmpeg ao ts t abr_text p
        ++ [EvTiming "download_from_youtube"])).
Proof. apply ready_job_run. Qed.

Lemma successful_job_run_witness :
  download_from_youtube (sample_env 0 sample_clock []) "https://example.com/video"
    "ffmpeg.exe" true empty_world
  = (Ok tt,
     World (∅ ∖ {[audio_filename_of "2024-03-09_21-05-07"]}) 1
       [EvPrint ("https://example.com/video" +:+ nl);
        EvPrint ("Download audio start..." +:+ nl);
        EvDownload "audio_2024-03-09_21-05-07.mp4";
        EvPrint ("Done" +:+ nl);
        EvSpawn ["ffmpeg.exe"; "-y"; "-i"; "audio_2024-03-09_21-05-07.mp4";
                 "-b:a"; "160k"; "My_clip_1_2_2024-03-09_21-05-07.mp3"];
        EvPrint ("frame=1" +:+ nl); EvPrint ("done" +:+ nl);
        EvRemove "audio_2024-03-09_21-05-07.mp4";
        EvTiming "download_from_youtube"]).
Proof.
  apply (successful_job_run (sample_env 0 sample_clock [])
           "https://example.com/video" "ffmpeg.exe" true empty_world
           "My clip 1/2" "160kbps"
           {| proc_stdout := ["frame=1" +:+ nl; "done" +:+ nl];
              proc_stdout_error := None; returncode := 0 |}).
  eapply (Ready _ _ _ _ _ sample_video "My clip 1/2" sample_streams
            (mk_audio "160kbps")); try reflexivity.
  discriminate.
Defined.

(** X2: a job returns normally exactly when all its inputs are there,
    up to the output of the transcoder being read to its end; nothing
    else makes it succeed and nothing else makes it fail. *)
Theorem job_returns_iff_ready (e : env) (url ffmpeg : string) (ao : bool)
    (w : world) :
  fst (download_from_youtube e url ffmpeg ao w) = Ok tt
  <-> exists t abr_text p,
        job_ready e url ffmpeg ao (strftime (now e (ticks w))) t abr_text p.
Proof.
  split.
  - destruct (download_from_youtube e url ffmpeg ao w) as [r w'] eqn:Hrun.
    apply job_cases in Hrun. cbv zeta in Hrun. destruct Hrun as [_ Hrun].
    cbn [fst]. intros ->. destruct Hrun as (t & abr_text & p & Hready & _).
    eauto.
  - intros (t & abr_text & p & Hready).
    now rewrite (ready_job_run e url ffmpeg ao w t abr_text p Hready).
Qed.

(** X3: a job that raises deletes nothing and prints no report of the
    elapsed time: every temporary file it downloaded before the failure
    is still in the working directory, and the log ends at the step that
    failed. *)
Theorem failed_job_leaves_its_downloads (e : env) (url ffmpeg : string)
    (ao : bool) (w : world) (x : exn) :
  let run := download_from_youtube e url ffmpeg ao w in
  let ts := strftime (now e (ticks w)) in
  fst run = Raise x ->
  job_failure e url ffmpeg ao ts x (new_events w (snd run))
  /\ removes (new_events w (snd run)) = []
  /\ outcomes (new_events w (snd run)) = []
  /\ files (snd run) = list_to_set (downloads (new_events w (snd run))) ∪ files w
  /\ (downloads (new_events w (snd run)) = []
      \/ downloads (new_events w (snd run)) = [audio_filename_of ts]
      \/ ao = false
         /\ downloads (new_events w (snd run))
            = [audio_filename_of ts; video_filename_of ts]).
Proof.
  intros run ts Hx. subst run ts.
  destruct (download_from_youtube e url ffmpeg ao w) as [r w'] eqn:Hrun.
  apply job_cases in Hrun. cbv zeta in Hrun. destruct Hrun as [_ Hrun].
  cbn [fst snd] in *. subst r.
  destruct Hrun as (evs & Hfail & Hf & Hl).
  rewrite (new_events_app _ _ _ Hl).
  destruct (job_failure_shape _ _ _ _ _ _ _ Hfail) as (Hrm & Hout & Hdl & _).
  auto 10.
Qed.

Lemma failed_job_leaves_its_downloads_witness :
  let e := without_transcoder no_such_executable (sample_env 0 sample_clock []) in
  let run := download_from_youtube e "https://example.com/video" "ffmpeg.exe"
               false empty_world in
  fst run = Raise no_such_executable
  /\ removes (new_events empty_world (snd run)) = []
  /\ outcomes (new_events empty_world (snd run)) = []
  /\ downloads (new_events empty_world (snd run))
     = ["audio_2024-03-09_21-05-07.mp4"; "video_2024-03-09_21-05-07.mp4"]
  /\ files (snd run)
     = list_to_set ["audio_2024-03-09_21-05-07.mp4";
                    "video_2024-03-09_21-05-07.mp4"] ∪ files empty_world.
Proof.
  intros e run.
  assert (Hx : fst run = Raise no_such_executable) by reflexivity.
  destruct (failed_job_leaves_its_downloads e "https://example.com/video"
              "ffmpeg.exe" false empty_world no_such_executable Hx)
    as (_ & Hrm & Hout & Hf & _).
  split; [exact Hx|]. split; [exact Hrm|]. split; [exact Hout|].
  split; [reflexivity|]. exact Hf.
Defined.

Lemma job_frame e url ffmpeg ao w f :
  let w' := snd (download_from_youtube e url ffmpeg ao w) in
  ~ named_at e (ticks w) f -> (f ∈ files w' <-> f ∈ files w).
Proof.
  intros w' Hn. subst w'.
  destruct (download_from_youtube e url ffmpeg ao w) as [r w'] eqn:Hrun.
  apply job_cases in Hrun. cbv zeta in Hrun. destruct Hrun as [_ Hrun].
  cbn [snd]. unfold named_at in Hn.
  destruct r as [[]|x].
  - destruct Hrun as (t & abr_text & p & _ & Hf & _). rewrite Hf.
    unfold temp_files. destruct ao; cbn [negb];
      rewrite elem_of_difference, ?elem_of_union, ?elem_of_singleton; tauto.
  - destruct Hrun as (evs & Hfail & Hf & _). rewrite Hf.
    destruct (job_failure_shape _ _ _ _ _ _ _ Hfail) as (_ & _ & Hdl & _).
    rewrite elem_of_union, elem_of_list_to_set.
    destruct Hdl as [->|[->|[_ ->]]];
      rewrite ?elem_of_cons, ?elem_of_nil; tauto.
Qed.

Lemma loop_body_frame e ffmpeg line w :
  exists w1,
    loop_body e ffmpeg line w = (Ok tt, w1)
    /\ (ticks w1 = ticks w /\ files w1 = files w
        \/ ticks w1 = S (ticks w)
           /\ forall f, ~ named_at e (ticks w) f ->
                (f ∈ files w1 <-> f ∈ files w)).
Proof.
  unfold loop_body, bind at 1, lift.
  destruct (classify_line_total (valid_url e) line) as [d ->].
  destruct d as [site|url ao].
  - unfold emit. eexists. split; [reflexivity|]. left. auto.
  - unfold try_except.
    pose proof (job_frame e url ffmpeg ao w) as Hframe. cbv zeta in Hframe.
    destruct (download_from_youtube e url ffmpeg ao w) as [r w1] eqn:Hj.
    apply job_inv in Hj. cbv zeta in Hj.
    destruct Hj as (evs & _ & _ & Htick & _). cbn [snd] in Hframe.
    destruct r as [[]|x].
    + exists w1. split; [reflexivity|]. right. auto.
    + unfold emit. eexists. split; [reflexivity|]. right. cbn [files ticks]. auto.
Qed.

Lemma for_each_frame e ffmpeg lines w f :
  let w' := snd (for_each lines (loop_body e ffmpeg) w) in
  (forall i, ticks w <= i < ticks w' -> ~ named_at e i f) ->
  (f ∈ files w' <-> f ∈ files w).
Proof.
  revert w. induction lines as [|line lines IH]; intros w w' Hn; subst w'.
  - reflexivity.
  - cbn [for_each] in *. unfold bind in *.
    destruct (loop_body_frame e ffmpeg line w) as (w1 & Hl & Hcase).
    rewrite Hl in *.
    destruct (for_each_loop_inv e ffmpeg lines w1) as (w2 & evs & Hr & _ & _ & Hle & _).
    specialize (IH w1). cbv zeta in IH. rewrite Hr in *. cbn [snd] in *.
    destruct Hcase as [[Ht Hf]|[Ht Hf]].
    + rewrite IH, Hf; [reflexivity|]. intros i Hi. apply Hn. lia.
    + rewrite IH, Hf; [reflexivity| |].
      * apply Hn. lia.
      * intros i Hi. apply Hn. lia.
Qed.

(** X4: the program itself (its downloads and its deletions; what the
    transcoder process writes is not part of the model) touches no file
    but the temporary files of its jobs: a file that is not the audio or
    the video temporary file of one of the jobs is in the working
    directory after the batch exactly when it was there before. *)
Theorem batch_touches_only_temp_files (e : env) (path ffmpeg : string)
    (w : world) (f : string) :
  let w' := snd (download_youtube_videos_from_file e path ffmpeg w) in
  (forall i, ticks w <= i < ticks w' -> ~ named_at e i f) ->
  (f ∈ files w' <-> f ∈ files w).
Proof.
  intros w'. subst w'. rewrite batch_run.
  destruct (open_file e path) as [file|x]; cbn [snd].
  - apply for_each_frame.
  - reflexivity.
Qed.

Lemma batch_touches_only_temp_files_witness :
  let e := sample_env 0 sample_clock
             ["https://example.com/one" +:+ nl; "a https://example.com/two" +:+ nl] in
  let w := World {["notes.txt"; "audio_old.mp4"]} 0 [] in
  let w' := snd (download_youtube_videos_from_file e "in.txt" "ffmpeg.exe" w) in
  "audio_old.mp4" ∈ files w' <-> "audio_old.mp4" ∈ files w.
Proof.
  intros e w w'.
  apply (batch_touches_only_temp_files e "in.txt" "ffmpeg.exe" w "audio_old.mp4").
  change (ticks (snd (download_youtube_videos_from_file e "in.txt" "ffmpeg.exe" w)))
    with 2.
  intros i Hi [H|H]; [|discriminate H].
  assert (i = 0 \/ i = 1) as [-> | ->] by (cbn in Hi; lia); discriminate H.
Defined.

Lemma filter_nothing {A} (p : A -> bool) (l : list A) :
  (forall x, x ∈ l -> p x = false) -> List.filter p l = [].
Proof.
  induction l as [|x l IH]; intros H; [reflexivity|]. cbn.
  rewrite (H x) by left. apply IH. intros y Hy. apply H. now right.
Qed.

Lemma order_by_nothing (attr : Stream -> option string) (q : list Stream) :
  (forall s, s ∈ q -> attr s = None) -> first (desc (order_by attr q)) = None.
Proof.
  intros H. unfold first, desc, order_by.
  rewrite (filter_nothing _ q); [reflexivity|].
  intros s Hs. rewrite (H s Hs). reflexivity.
Qed.

Lemma filtered_nothing (p : Stream -> bool) (attr : Stream -> option string)
    (q : list Stream) :
  (forall s, s ∈ q -> p s = true -> attr s = None) ->
  first (desc (order_by attr (List.filter p q))) = None.
Proof.
  intros H. apply order_by_nothing.
  intros s [Hs Hp]%elem_of_filter_bool. auto.
Qed.

(** X5: when the catalogue of a video holds no audio-only stream with a
    bitrate (an empty catalogue included), the job raises the
    [AttributeError] of line 94 right after reading the catalogue: the
    URL has been printed, nothing was downloaded and no file changed. *)
Theorem no_audio_stream_raises (e : env) (url ffmpeg : string) (ao : bool)
    (w : world) (yt : YouTubeObj) (t : string) (q : list Stream) :
  YouTube e url = Ok yt -> title yt = Ok t -> streams yt = Ok q ->
  (forall s, s ∈ q -> only_audio s = true -> abr s = None) ->
  download_from_youtube e url ffmpeg ao w
  = (Raise (none_has_no "abr"),
     World (files w) (S (ticks w)) (log w ++ [EvPrint (url +:+ nl)])).
Proof.
  intros Hyt Ht Hq Hnone.
  pose proof (filtered_nothing only_audio abr q Hnone) as Hsel.
  destruct (download_from_youtube e url ffmpeg ao w) as [r w'] eqn:Hrun.
  apply job_cases in Hrun. cbv zeta in Hrun. destruct Hrun as [Htick Hrun].
  destruct r as [[]|x].
  - destruct Hrun as (t' & abr_text & p & Hready & _).
    destruct Hready. same_reads.
  - destruct Hrun as (evs & Hfail & Hf & Hl).
    inversion Hfail; subst; same_reads.
    f_equal. apply world_eq; [|exact Htick|exact Hl].
    rewrite Hf. apply files_after_none.
Qed.

Lemma no_audio_stream_raises_witness :
  download_from_youtube
    (with_catalogue [mk_video "720p"; mk_progressive "360p" "96kbps"]
       (sample_env 0 sample_clock []))
    "https://example.com/video" "ffmpeg.exe" true empty_world
  = (Raise (none_has_no "abr"),
     World ∅ 1 [EvPrint ("https://example.com/video" +:+ nl)]).
Proof.
  apply (no_audio_stream_raises
           (with_catalogue [mk_video "720p"; mk_progressive "360p" "96kbps"]
              (sample_env 0 sample_clock []))
           "https://example.com/video" "ffmpeg.exe" true empty_world
           _ "My clip 1/2" [mk_video "720p"; mk_progressive "360p" "96kbps"]
           eq_refl eq_refl eq_refl).
  intros s Hs Hao.
  repeat (apply elem_of_cons in Hs as [->|Hs]); try discriminate Hao.
  inversion Hs.
Defined.

(** X6: when a job that is not audio-only finds no video-only stream
    with a resolution, it raises the [AttributeError] of line 104 after
    the audio was downloaded: the audio temporary file stays in the
    working directory and the transcoder is never started. *)
Theorem no_video_stream_leaves_audio (e : env) (url ffmpeg : string)
    (w : world) (yt : YouTubeObj) (t : string) (q : list Stream) (a : Stream) :
  let ts := strftime (now e (ticks w)) in
  YouTube e url = Ok yt -> title yt = Ok t -> streams yt = Ok q ->
  first (desc (order_by abr (List.filter only_audio q))) = Some a ->
  download_raises a = None ->
  (forall s, s ∈ q -> only_video s = true -> resolution s = None) ->
  download_from_youtube e url ffmpeg false w
  = (Raise (none_has_no "download"),
     World ({[audio_filename_of ts]} ∪ files w) (S (ticks w))
       (log w ++ [EvPrint (url +:+ nl);
                  EvPrint ("Download audio start..." +:+ nl);
                  EvDownload (audio_filename_of ts);
                  EvPrint ("Done" +:+ nl);
                  EvPrint ("Download video start..." +:+ nl)])).
Proof.
  intros ts Hyt Ht Hq Ha Hdl Hnone.
  pose proof (filtered_nothing only_video resolution q Hnone) as Hsel.
  destruct (download_from_youtube e url ffmpeg false w) as [r w'] eqn:Hrun.
  apply job_cases in Hrun. cbv zeta in Hrun. destruct Hrun as [Htick Hrun].
  destruct r as [[]|x].
  - destruct Hrun as (t' & abr_text & p & Hready & _).
    destruct Hready as [? ? ? ? ? ? ? ? ? ? ? ? Hv ?].
    destruct (Hv eq_refl) as (v & Hv1 & _). same_reads.
  - destruct Hrun as (evs & Hfail & Hf & Hl).
    inversion Hfail; subst; same_reads;
      try match goal with
          | Hv : false = false -> _ |- _ =>
              destruct (Hv eq_refl) as (v' & Hv1 & _); same_reads
          end.
    f_equal. apply world_eq; [|exact Htick|exact Hl].
    rewrite Hf. symmetry. apply files_after_one.
Qed.

Lemma no_video_stream_leaves_audio_witness :
  download_from_youtube
    (with_catalogue [mk_audio "128kbps"; mk_progressive "360p" "96kbps"]
       (sample_env 0 sample_clock []))
    "https://example.com/video" "ffmpeg.exe" false empty_world
  = (Raise (none_has_no "download"),
     World ({[audio_filename_of (strftime (sample_clock 0))]} ∪ ∅) 1
       [EvPrint ("https://example.com/video" +:+ nl);
        EvPrint ("Download audio start..." +:+ nl);
        EvDownload "audio_2024-03-09_21-05-07.mp4";
        EvPrint ("Done" +:+ nl);
        EvPrint ("Download video start..." +:+ nl)]).
Proof.
  apply (no_video_stream_leaves_audio
           (with_catalogue [mk_audio "128kbps"; mk_progressive "360p" "96kbps"]
              (sample_env 0 sample_clock []))
           "https://example.com/video" "ffmpeg.exe" empty_world
           _ "My clip 1/2" [mk_audio "128kbps"; mk_progressive "360p" "96kbps"]
           (mk_audio "128kbps") eq_refl eq_refl eq_refl eq_refl eq_refl).
  intros s Hs Hvo.
  repeat (apply elem_of_cons in Hs as [->|Hs]); try discriminate Hvo.
  inversion Hs.
Defined.

(** X16: when reading the output of the transcoder raises (lines 114 and
    124 decode the pipe as text), the exception leaves the job after the
    lines read so far were forwarded: nothing is deleted, the temporary
    files stay in the working directory, and no report of the elapsed
    time is printed. *)
Theorem unreadable_output_leaves_temp_files (e : env) (url ffmpeg : string)
    (ao : bool) (w : world) (yt : YouTubeObj) (t : string) (q : list Stream)
    (a : Stream) (abr_text : string) (p : process) (x : exn) :
  let ts := strftime (now e (ticks w)) in
  YouTube e url = Ok yt -> title yt = Ok t -> streams yt = Ok q ->
  first (desc (order_by abr (List.filter only_audio q))) = Some a ->
  abr a = Some abr_text ->
  download_raises a = None ->
  (ao = false ->
   exists v,
     first (desc (order_by resolution (List.filter only_video q))) = Some v
     /\ download_raises v = None) ->
  Popen e (job_command ffmpeg ao ts (sanitize_title t) abr_text) = Ok p ->
  proc_stdout_error p = Some x ->
  download_from_youtube e url ffmpeg ao w
  = (Raise x,
     World (temp_files ao ts ∪ files w) (S (ticks w))
       (log w
        ++ [EvPrint (url +:+ nl); EvPrint ("Download audio start..." +:+ nl);
            EvDownload (audio_filename_of ts); EvPrint ("Done" +:+ nl)]
        ++ (if ao then []
            else [EvPrint ("Download video start..." +:+ nl);
                  EvDownload (video_filename_of ts);
                  EvPrint ("Done" +:+ nl)])
        ++ [EvSpawn (job_command ffmpeg ao ts (sanitize_title t) abr_text)]
        ++ map EvPrint (proc_stdout p))).
Proof.
  intros ts Hyt Ht Hq Ha Habr Hdl Hv Hp Herr. subst ts.
  destruct (download_from_youtube e url ffmpeg ao w) as [r w'] eqn:Hrun.
  apply job_cases in Hrun. cbv zeta in Hrun. destruct Hrun as [Htick Hrun].
  destruct r as [[]|x'].
  - destruct Hrun as (t' & abr' & p' & Hready & _).
    destruct Hready as [? ? ? ? ? ? ? ? ? ? ? ? ? ? ?]. same_reads.
  - destruct Hrun as (evs & Hfail & Hf & Hl).
    inversion Hfail; subst; same_reads;
      try match goal with
          | Hao : false = false -> _ |- _ =>
              destruct (Hao eq_refl) as (v' & Hv1 & Hv2);
              destruct (Hv eq_refl) as (v'' & Hv3 & Hv4); same_reads
          end.
    f_equal. apply world_eq; [|exact Htick|exact Hl].
    rewrite Hf, !downloads_app, downloads_prints. unfold temp_files.
    destruct ao; cbn [negb downloads omap option_bind mbind list_omap app].
    + symmetry. apply files_after_one.
    + rewrite <- files_after_two. apply kept_after_download_both.
Qed.

Lemma unreadable_output_leaves_temp_files_witness :
  download_from_youtube
    (with_unreadable_output undecodable (sample_env 0 sample_clock []))
    "https://example.com/video" "ffmpeg.exe" true empty_world
  = (Raise undecodable,
     World ({[audio_filename_of (strftime (sample_clock 0))]} ∪ ∅) 1
       [EvPrint ("https://example.com/video" +:+ nl);
        EvPrint ("Download audio start..." +:+ nl);
        EvDownload "audio_2024-03-09_21-05-07.mp4";
        EvPrint ("Done" +:+ nl);
        EvSpawn ["ffmpeg.exe"; "-y"; "-i"; "audio_2024-03-09_21-05-07.mp4";
                 "-b:a"; "160k"; "My_clip_1_2_2024-03-09_21-05-07.mp3"];
        EvPrint ("frame=1" +:+ nl); EvPrint ("done" +:+ nl)]).
Proof.
  apply (unreadable_output_leaves_temp_files
           (with_unreadable_output undecodable (sample_env 0 sample_clock []))
           "https://example.com/video" "ffmpeg.exe" true empty_world
           sample_video "My clip 1/2" sample_streams (mk_audio "160kbps")
           "160kbps"
           {| proc_stdout := ["frame=1" +:+ nl; "done" +:+ nl];
              proc_stdout_error := Some undecodable; returncode := 0 |}
           _ eq_refl eq_refl eq_refl eq_refl eq_refl eq_refl);
    [discriminate | reflexivity | reflexivity].
Defined.

Lemma downloads_body_trace url ffmpeg ao ts t abr_text p :
  downloads (body_trace url ffmpeg ao ts t abr_text p)
  = if ao then [audio_filename_of ts]
    else [audio_filename_of ts; video_filename_of ts].
Proof.
  unfold body_trace. rewrite !downloads_app, downloads_prints.
  destruct ao; reflexivity.
Qed.

(** X7: whenever a job downloads a video file, the job is not
    audio-only and the stream downloaded is a video-only stream of the
    catalogue whose numeric resolution is the highest among the
    video-only streams (every such stream with a resolution holding a
    number). *)
Theorem highest_resolution_video_is_selected (e : env) (url ffmpeg : string)
    (ao : bool) (w : world) :
  let run := download_from_youtube e url ffmpeg ao w in
  let ts := strftime (now e (ticks w)) in
  video_filename_of ts ∈ downloads (new_events w (snd run)) ->
  ao = false
  /\ exists yt q v res,
       YouTube e url = Ok yt /\ streams yt = Ok q
       /\ first (desc (order_by resolution (List.filter only_video q))) = Some v
       /\ v ∈ q /\ only_video v = true /\ resolution v = Some res
       /\ download_raises v = None
       /\ ((forall s, s ∈ q -> only_video s = true -> is_Some (resolution s) ->
              is_Some (int_key resolution s)) ->
           exists rv, int_key resolution v = Some rv
             /\ forall s r, s ∈ q -> only_video s = true ->
                  int_key resolution s = Some r -> (r <= rv)%N).
Proof.
  intros run ts Hin. subst run ts.
  destruct (download_from_youtube e url ffmpeg ao w) as [r w'] eqn:Hrun.
  apply job_cases in Hrun. cbv zeta in Hrun. destruct Hrun as [_ Hrun].
  cbn [snd] in Hin.
  assert (Hsel : ao = false
                 /\ exists yt q v,
                      YouTube e url = Ok yt /\ streams yt = Ok q
                      /\ first (desc (order_by resolution (List.filter only_video q)))
                         = Some v
                      /\ download_raises v = None).
  { destruct r as [[]|x].
    - destruct Hrun as (t & abr_text & p & Hready & _ & Hl).
      rewrite (new_events_app _ _ _ Hl), downloads_app, downloads_body_trace in Hin.
      destruct ao.
      + cbn in Hin. apply elem_of_cons in Hin as [Hin|Hin]; [|inversion Hin].
        symmetry in Hin. now apply audio_video_names_differ in Hin.
      + split; [reflexivity|].
        destruct Hready as [yt t0 q a abr0 p0 Hyt Ht Hq Ha Habr Hdl Hv Hp Herr].
        destruct (Hv eq_refl) as (v & Hv1 & Hv2). eauto 10.
    - destruct Hrun as (evs & Hfail & _ & Hl).
      rewrite (new_events_app _ _ _ Hl) in Hin.
      inversion Hfail; subst;
        rewrite ?downloads_app, ?downloads_prints in Hin; cbn in Hin;
        try (inversion Hin; fail);
        try (apply elem_of_cons in Hin as [Hin|Hin]; [|inversion Hin];
             symmetry in Hin; now apply audio_video_names_differ in Hin).
      all: destruct ao;
        [ cbn in Hin; apply elem_of_cons in Hin as [Hin|Hin]; [|inversion Hin];
          symmetry in Hin; now apply audio_video_names_differ in Hin
        | split; [reflexivity|];
          match goal with
          | Hv : false = false -> _ |- _ =>
              destruct (Hv eq_refl) as (v & Hv1 & Hv2)
          end;
          eauto 10 ]. }
  destruct Hsel as (Hao & yt & q & v & Hyt & Hq & Hv & Hdl).
  split; [exact Hao|].
  pose proof Hv as Hmax.
  apply order_by_first_max in Hmax as (Hvq & [res Hres] & Hmax).
  apply elem_of_filter_bool in Hvq as [Hvq Hvo].
  exists yt, q, v, res. repeat (split; [assumption|]).
  intros Hnum.
  destruct (Hnum v Hvq Hvo (mk_is_Some _ _ Hres)) as [rv Hrv].
  exists rv. split; [exact Hrv|].
  intros s r0 Hs Hso Hr.
  assert (Hle : (default 0 (int_key resolution s)
                 <= default 0 (int_key resolution v))%N).
  { apply Hmax.
    - intros s' [Hs' Hso']%elem_of_filter_bool. now apply Hnum.
    - apply elem_of_filter_bool. auto.
    - unfold int_key, attr_str in Hr.
      destruct (resolution s); [eauto | discriminate]. }
  now rewrite Hr, Hrv in Hle.
Qed.

Lemma highest_resolution_video_is_selected_witness :
  exists v,
    first (desc (order_by resolution (List.filter only_video sample_streams)))
    = Some v
    /\ resolution v = Some "1080p".
Proof.
  destruct (highest_resolution_video_is_selected (sample_env 0 sample_clock [])
              "https://example.com/video" "ffmpeg.exe" false empty_world)
    as (_ & yt & q & v & res & Hyt & Hq & Hv & _).
  { vm_compute. right. left. }
  cbn in Hyt. injection Hyt as <-. cbn in Hq. injection Hq as <-.
  exists v. split; [exact Hv|].
  vm_compute in Hv. injection Hv as <-. reflexivity.
Defined.

(** X8: the report of the elapsed time is the last thing a job prints
    exactly when the job returns; a job that raises prints no such
    report (lines 19 to 23). *)
Theorem timing_report_iff_returned (e : env) (url ffmpeg : string) (ao : bool)
    (w : world) :
  let run := download_from_youtube e url ffmpeg ao w in
  (fst run = Ok tt
   <-> last (new_events w (snd run)) = Some (EvTiming "download_from_youtube"))
  /\ (forall x fname, fst run = Raise x ->
        EvTiming fname ∉ new_events w (snd run)).
Proof.
  intros run. subst run.
  destruct (download_from_youtube e url ffmpeg ao w) as [r w'] eqn:Hrun.
  apply job_cases in Hrun. cbv zeta in Hrun. destruct Hrun as [_ Hrun].
  cbn [fst snd].
  destruct r as [[]|x].
  - destruct Hrun as (t & abr_text & p & _ & _ & Hl).
    rewrite (new_events_app _ _ _ Hl), last_snoc.
    split; [tauto | discriminate].
  - destruct Hrun as (evs & Hfail & _ & Hl).
    rewrite (new_events_app _ _ _ Hl).
    destruct (job_failure_shape _ _ _ _ _ _ _ Hfail)
      as (_ & Hout & _ & ev & Hlast & Hev).
    split.
    + split; [discriminate|]. intros H. rewrite Hlast in H.
      injection H as ->. discriminate Hev.
    + intros x' fname _ Hin.
      assert (Hin' : EvTiming fname ∈ outcomes evs)
        by (apply elem_of_filter_bool; auto).
      rewrite Hout in Hin'. inversion Hin'.
Qed.

(** ** Properties of the line classifier *)

Local Ltac table_case :=
  repeat match goal with
         | H : ex _ |- _ => destruct H
         | H : _ /\ _ |- _ => destruct H
         | H : _ \/ _ |- _ => destruct H
         end;
  simplify_eq; try congruence; try (cbn [length] in *; lia); eauto 10.

(** X9: the complete table of the decisions of lines 45 to 64, read off
    the space-separated tokens of the stripped line: which lines each of
    the three reachable rejections takes, and which lines are
    dispatched. *)
Theorem line_decision_table (v : string -> bool) (line : string) :
  let toks := split " " (strip line) in
  (classify_line v line = Ok (Bad TooManyTokens) <-> 2 < length toks)
  /\ (classify_line v line = Ok (Bad BadUrl)
      <-> exists t, toks = [t] /\ v t = false)
  /\ (classify_line v line = Ok (Bad BadFlag)
      <-> exists t1 t2, toks = [t1; t2] /\ v t2 = true /\ t1 <> "a")
  /\ ((exists url ao, classify_line v line = Ok (Call url ao))
      <-> (exists t, toks = [t] /\ v t = true)
          \/ (exists t1 t2, toks = [t1; t2] /\ (v t2 = false \/ t1 = "a"))).
Proof.
  intros toks. subst toks. rewrite classify_line_tokens.
  pose proof (split_nonempty " " (strip line)) as Hne.
  destruct (split " " (strip line)) as [|t1 [|t2 [|t3 ts]]]; [congruence|..].
  - destruct (v t1) eqn:Hv; cbn [length]; repeat split; intros; table_case.
  - destruct (v t2) eqn:Hv; [destruct (String.eqb_spec t1 "a") as [->|Hne1]|];
      cbn [length]; repeat split; intros; table_case.
  - cbn [length]. repeat split; intros; table_case.
Qed.

Lemma append_assoc (a b c : string) : (a +:+ b) +:+ c = a +:+ (b +:+ c).
Proof.
  induction a as [|x a IH]; [reflexivity|].
  change (String x ((a +:+ b) +:+ c) = String x (a +:+ (b +:+ c))).
  now f_equal.
Qed.

Lemma lstrip_padding (pre s : string) :
  str_forall isspace pre = true -> lstrip (pre +:+ s) = lstrip s.
Proof.
  induction pre as [|c pre IH]; simpl; [reflexivity|].
  intros [Hc Hpre]%andb_true_iff. rewrite Hc. auto.
Qed.

Lemma rstrip_all_space (s : string) :
  str_forall isspace s = true -> rstrip s = EmptyString.
Proof.
  induction s as [|c r IH]; simpl; [reflexivity|].
  intros [Hc Hr]%andb_true_iff. now rewrite IH, Hc.
Qed.

Lemma rstrip_padding (s post : string) :
  str_forall isspace post = true -> rstrip (s +:+ post) = rstrip s.
Proof.
  intros Hpost. induction s as [|c r IH]; simpl.
  - now apply rstrip_all_space.
  - now rewrite IH.
Qed.

Lemma strip_padding (pre s post : string) :
  str_forall isspace pre = true -> str_forall isspace post = true ->
  strip (pre +:+ s +:+ post) = strip s.
Proof.
  intros Hpre Hpost. unfold strip. rewrite lstrip_padding by exact Hpre.
  induction s as [|c r IH].
  - change ("" +:+ post) with post.
    now rewrite (lstrip_all_space post Hpost).
  - change (String c r +:+ post) with (String c (r +:+ post)).
    cbn [lstrip]. destruct (isspace c); [exact IH|].
    apply (rstrip_padding (String c r)), Hpost.
Qed.

(** X10: white space around a line does not change what is decided
    for it (line 45 strips it): in particular the line break that ends
    every line read from the file, and blanks or tabs around the text. *)
Theorem surrounding_white_space_is_ignored (v : string -> bool)
    (pre line post : string) :
  str_forall isspace pre = true -> str_forall isspace post = true ->
  classify_line v (pre +:+ line +:+ post) = classify_line v line.
Proof.
  intros Hpre Hpost. rewrite !classify_line_tokens.
  now rewrite strip_padding.
Qed.

Lemma surrounding_white_space_is_ignored_witness :
  classify_line sample_valid_url
    ("  " +:+ "a https://example.com/video"
     +:+ (tab +:+ nl))
  = classify_line sample_valid_url "a https://example.com/video".
Proof.
  apply (surrounding_white_space_is_ignored sample_valid_url "  "
           "a https://example.com/video" (tab +:+ nl));
    reflexivity.
Defined.

Lemma plain_token_cons (c : ascii) (r : string) :
  plain_token (String c r) = true ->
  isprintable c = true /\ Ascii.eqb c squote = false
  /\ Ascii.eqb c backslash = false /\ isspace c = false
  /\ plain_token r = true.
Proof.
  unfold plain_token, plain_char. cbn [str_forall].
  rewrite !andb_true_iff, !negb_true_iff. tauto.
Qed.

Lemma lstrip_plain (tok : string) : plain_token tok = true -> lstrip tok = tok.
Proof.
  destruct tok as [|c r]; [reflexivity|].
  intros (_ & _ & _ & Hs & _)%plain_token_cons. simpl. now rewrite Hs.
Qed.

Lemma rstrip_plain (tok : string) : plain_token tok = true -> rstrip tok = tok.
Proof.
  induction tok as [|c r IH]; [reflexivity|].
  intros (_ & _ & _ & Hs & Hr)%plain_token_cons. simpl.
  rewrite (IH Hr), Hs. now destruct r.
Qed.

Lemma split_plain (tok : string) :
  plain_token tok = true -> split " " tok = [tok].
Proof.
  induction tok as [|c r IH]; [reflexivity|].
  intros (_ & _ & _ & Hs & Hr)%plain_token_cons. simpl. rewrite (IH Hr).
  destruct (Ascii.eqb_spec c " ") as [->|_]; [discriminate Hs | reflexivity].
Qed.

Lemma str_mem_plain (tok : string) :
  plain_token tok = true -> str_mem squote tok = false.
Proof.
  induction tok as [|c r IH]; [reflexivity|].
  intros (_ & Hq & _ & _ & Hr)%plain_token_cons. cbn [str_mem].
  now rewrite (Ascii.eqb_sym squote c), Hq, (IH Hr).
Qed.

Lemma repr_char_plain (c : ascii) :
  isprintable c = true -> Ascii.eqb c squote = false ->
  Ascii.eqb c backslash = false -> repr_char squote c = str1 c.
Proof.
  intros Hp Hq Hb. unfold repr_char. rewrite Hq, Hb, Hp. cbn [orb].
  unfold isprintable in Hp. cbv zeta in Hp.
  apply andb_true_iff in Hp as [[Hlo%Nat.leb_le _]%andb_true_iff _].
  destruct (Nat.eqb_spec (code c) 9); [lia|].
  destruct (Nat.eqb_spec (code c) 10); [lia|].
  destruct (Nat.eqb_spec (code c) 13); [lia|]. reflexivity.
Qed.

Lemma repr_body_plain (tok : string) :
  plain_token tok = true -> repr_body squote tok = tok.
Proof.
  induction tok as [|c r IH]; [reflexivity|].
  intros (Hp & Hq & Hb & _ & Hr)%plain_token_cons. cbn [repr_body].
  now rewrite (repr_char_plain c Hp Hq Hb), (IH Hr).
Qed.

Lemma str_of_list_plain (tok : string) :
  plain_token tok = true -> str_of_list [tok] = "['" +:+ tok +:+ "']".
Proof.
  intros H. unfold str_of_list, repr_str, repr_quote. cbn [map join].
  rewrite (str_mem_plain tok H). cbn [andb].
  rewrite (repr_body_plain tok H).
  change (String "[" (String "'" ((tok +:+ "'") +:+ "]"))
          = String "[" (String "'" (tok +:+ "']"))).
  do 2 f_equal. apply append_assoc.
Qed.

(** X11: a line that holds one plain token (printable characters, no
    quote, no backslash, no white space) the validator accepts is
    dispatched as a video job whose URL argument is the text of the
    one-element list (line 67 applies [str] to the list): the token
    between [['] and [']]. *)
Theorem plain_url_line_is_passed_in_list_syntax (v : string -> bool)
    (tok : string) :
  plain_token tok = true -> v tok = true ->
  classify_line v (tok +:+ nl) = Ok (Call ("['" +:+ tok +:+ "']") false).
Proof.
  intros Hplain Hv. rewrite classify_line_tokens.
  assert (strip (tok +:+ nl) = tok) as ->.
  { transitivity (strip tok).
    - exact (strip_padding "" tok nl eq_refl eq_refl).
    - unfold strip.
      now rewrite (lstrip_plain tok Hplain), (rstrip_plain tok Hplain). }
  now rewrite (split_plain tok Hplain), Hv, (str_of_list_plain tok Hplain).
Qed.

Lemma plain_url_line_is_passed_in_list_syntax_witness :
  classify_line sample_valid_url ("https://youtu.be/dQw4w9WgXcQ?t=42" +:+ nl)
  = Ok (Call ("['" +:+ "https://youtu.be/dQw4w9WgXcQ?t=42" +:+ "']") false).
Proof.
  apply (plain_url_line_is_passed_in_list_syntax sample_valid_url
           "https://youtu.be/dQw4w9WgXcQ?t=42"); reflexivity.
Defined.

(** ** Properties of the batch *)

Lemma bad_lines_app l1 l2 : bad_lines (l1 ++ l2) = bad_lines l1 ++ bad_lines l2.
Proof. apply omap_app. Qed.

Lemma bad_lines_prints l : bad_lines (map EvPrint l) = [].
Proof. induction l; simpl; auto. Qed.

Lemma bad_lines_body_trace url ffmpeg ao ts t abr_text p :
  bad_lines (body_trace url ffmpeg ao ts t abr_text p) = [].
Proof.
  unfold body_trace. rewrite !bad_lines_app, bad_lines_prints.
  now destruct ao.
Qed.

Lemma bad_lines_job_failure e url ffmpeg ao ts x evs :
  job_failure e url ffmpeg ao ts x evs -> bad_lines evs = [].
Proof.
  intros H. inversion H; subst;
    rewrite ?bad_lines_app, ?bad_lines_prints; try destruct ao; reflexivity.
Qed.

(** One iteration either prints one bad-line message and leaves the
    clock alone, or prints none and reads the clock once. *)
Lemma loop_body_bad_lines e ffmpeg line w :
  exists w1 evs,
    loop_body e ffmpeg line w = (Ok tt, w1)
    /\ log w1 = log w ++ evs
    /\ bad_lines evs = option_list (rejection_of (valid_url e) line)
    /\ ticks w1 + length (bad_lines evs) = S (ticks w).
Proof.
  unfold loop_body, bind at 1, lift, rejection_of.
  destruct (classify_line_total (valid_url e) line) as [d ->].
  destruct d as [site|url ao].
  - unfold emit. eexists _, [EvBadLine site line].
    split; [reflexivity|]. cbn. split; [reflexivity|]. split; [reflexivity|].
    lia.
  - unfold try_except.
    destruct (download_from_youtube e url ffmpeg ao w) as [r w1] eqn:Hj.
    apply job_cases in Hj. cbv zeta in Hj. destruct Hj as [Htick Hj].
    destruct r as [[]|x].
    + destruct Hj as (t & abr_text & p & _ & _ & Hl).
      eexists w1, _. split; [reflexivity|]. split; [exact Hl|].
      rewrite bad_lines_app, bad_lines_body_trace. cbn. split; [reflexivity|].
      lia.
    + destruct Hj as (evs & Hfail & _ & Hl).
      unfold emit. eexists _, (evs ++ [EvCaught x]). split; [reflexivity|].
      cbn [log ticks]. rewrite Hl, <- app_assoc. split; [reflexivity|].
      rewrite bad_lines_app, (bad_lines_job_failure _ _ _ _ _ _ _ Hfail).
      cbn. split; [reflexivity|]. lia.
Qed.

Lemma for_each_bad_lines e ffmpeg lines w :
  exists w' evs,
    for_each lines (loop_body e ffmpeg) w = (Ok tt, w')
    /\ log w' = log w ++ evs
    /\ bad_lines evs = omap (rejection_of (valid_url e)) lines
    /\ ticks w' + length (bad_lines evs) = ticks w + length lines.
Proof.
  revert w. induction lines as [|line lines IH]; intros w.
  - exists w, []. cbn. unfold ret. rewrite app_nil_r. repeat split; lia.
  - destruct (loop_body_bad_lines e ffmpeg line w)
      as (w1 & evs1 & Hrun1 & Hlog1 & Hbad1 & Ht1).
    destruct (IH w1) as (w' & evs2 & Hrun2 & Hlog2 & Hbad2 & Ht2).
    exists w', (evs1 ++ evs2). cbn [for_each]. unfold bind. rewrite Hrun1.
    split; [exact Hrun2|]. split; [now rewrite Hlog2, Hlog1, <- app_assoc|].
    rewrite bad_lines_app, Hbad1, Hbad2 in *. cbn [omap list_omap length].
    destruct (rejection_of (valid_url e) line) as [r|]; cbn in *;
      (split; [reflexivity|]).
    all: rewrite ?length_app; cbn; lia.
Qed.

(** X12: the bad-line messages of a batch are those of the lines the
    classifier rejects, each showing its line as read, in the order of
    the file; and [datetime.now()] is read once for every other line,
    since each of them starts one job. *)
Theorem bad_line_messages_follow_the_file (e : env) (path ffmpeg : string)
    (lines : list string) (w : world) :
  open_lines e path = Ok lines ->
  let w' := snd (download_youtube_videos_from_file e path ffmpeg w) in
  bad_lines (new_events w w') = omap (rejection_of (valid_url e)) lines
  /\ ticks w' + length (bad_lines (new_events w w')) = ticks w + length lines.
Proof.
  intros Hopen w'. subst w'.
  rewrite (batch_of_lines e path ffmpeg lines w Hopen).
  destruct (for_each_bad_lines e ffmpeg lines w)
    as (w' & evs & -> & Hlog & Hbad & Ht).
  cbn [snd]. rewrite (new_events_app _ _ _ Hlog). auto.
Qed.

Lemma bad_line_messages_follow_the_file_witness :
  let lines := ["https://example.com/one" +:+ nl;
                "b https://example.com/two" +:+ nl;
                "nonsense" +:+ nl;
                "a https://example.com/three" +:+ nl;
                "a b c" +:+ nl] in
  let e := sample_env 0 sample_clock lines in
  let w' := snd (download_youtube_videos_from_file e "in.txt" "ffmpeg.exe"
                   empty_world) in
  bad_lines (new_events empty_world w')
  = [(BadFlag, "b https://example.com/two" +:+ nl);
     (BadUrl, "nonsense" +:+ nl);
     (TooManyTokens, "a b c" +:+ nl)]
  /\ ticks w' = 2.
Proof.
  intros lines e w'.
  destruct (bad_line_messages_follow_the_file e "in.txt" "ffmpeg.exe" lines
              empty_world eq_refl) as [Hbad Ht].
  fold w' in Hbad, Ht. rewrite Hbad in Ht |- *. split; [reflexivity|].
  change (ticks w' + 3 = 5) in Ht. lia.
Defined.

(** X13: a batch raises exactly when reading its input file to the end
    raises, with that exception: either [open] raises (line 41), and
    then nothing has happened, or the iterator of the file raises (line
    42, outside the [try] of line 66), and then the lines it had yielded
    were processed as usual. The exceptions of a job are instances of
    [Exception] and are caught. *)
Theorem batch_raises_iff_reading_fails (e : env) (path ffmpeg : string)
    (w : world) (x : exn) :
  let run := download_youtube_videos_from_file e path ffmpeg w in
  (fst run = Raise x <-> open_lines e path = Raise x)
  /\ (open_file e path = Raise x -> run = (Raise x, w))
  /\ (forall file, open_file e path = Ok file ->
        fst run = match file_error file with
                  | Some x' => Raise x'
                  | None => Ok tt
                  end
        /\ for_each (file_lines file) (loop_body e ffmpeg) w = (Ok tt, snd run)).
Proof.
  intros run. subst run. rewrite batch_run. unfold open_lines.
  destruct (open_file e path) as [file|x'].
  - destruct (for_each_loop_inv e ffmpeg (file_lines file) w)
      as (w' & evs & Hrun & _).
    rewrite Hrun. cbn [fst snd]. split; [|split; [discriminate|]].
    + destruct (file_error file); split; intros [= ->]; reflexivity.
    + intros ? [= <-]. auto.
  - cbn [fst snd]. split; [split; intros [= ->]; reflexivity|].
    split; [intros [= ->]; reflexivity | discriminate].
Qed.

Lemma caught_app l1 l2 : caught (l1 ++ l2) = caught l1 ++ caught l2.
Proof. apply omap_app. Qed.

(** An iteration in which nothing is caught adds no file. *)
Lemma loop_body_clean e ffmpeg line w :
  exists w1 evs,
    loop_body e ffmpeg line w = (Ok tt, w1)
    /\ log w1 = log w ++ evs
    /\ (caught evs = [] -> files w1 ⊆ files w).
Proof.
  unfold loop_body, bind at 1, lift.
  destruct (classify_line_total (valid_url e) line) as [d ->].
  destruct d as [site|url ao].
  - unfold emit. eexists _, [EvBadLine site line].
    split; [reflexivity|]. cbn. split; [reflexivity|]. reflexivity.
  - unfold try_except.
    destruct (download_from_youtube e url ffmpeg ao w) as [r w1] eqn:Hj.
    apply job_cases in Hj. cbv zeta in Hj. destruct Hj as [_ Hj].
    destruct r as [[]|x].
    + destruct Hj as (t & abr_text & p & _ & Hf & Hl).
      eexists w1, _. split; [reflexivity|]. split; [exact Hl|].
      intros _. rewrite Hf. apply subseteq_difference_l. reflexivity.
    + destruct Hj as (evs & _ & _ & Hl).
      unfold emit. eexists _, (evs ++ [EvCaught x]). split; [reflexivity|].
      cbn [log files]. rewrite Hl, <- app_assoc. split; [reflexivity|].
      rewrite caught_app. intros [_ H]%app_eq_nil. discriminate H.
Qed.

Lemma for_each_clean e ffmpeg lines w :
  exists w' evs,
    for_each lines (loop_body e ffmpeg) w = (Ok tt, w')
    /\ log w' = log w ++ evs
    /\ (caught evs = [] -> files w' ⊆ files w).
Proof.
  revert w. induction lines as [|line lines IH]; intros w.
  - exists w, []. cbn [for_each]. unfold ret. rewrite app_nil_r.
    split; [reflexivity|]. split; [reflexivity|]. intros _. reflexivity.
  - destruct (loop_body_clean e ffmpeg line w) as (w1 & evs1 & Hrun1 & Hlog1 & H1).
    destruct (IH w1) as (w' & evs2 & Hrun2 & Hlog2 & H2).
    exists w', (evs1 ++ evs2). cbn [for_each]. unfold bind. rewrite Hrun1.
    split; [exact Hrun2|]. split; [now rewrite Hlog2, Hlog1, <- app_assoc|].
    rewrite caught_app. intros [Hc1 Hc2]%app_eq_nil.
    transitivity (files w1); auto.
Qed.

(** X14: a batch in which no exception is caught leaves none of its
    downloads behind: every job that returns has deleted the temporary
    files it downloaded, and the program creates no other file itself
    (the output file is written by the transcoder process, which the
    model leaves out). *)
Theorem clean_batch_adds_no_file (e : env) (path ffmpeg : string) (w : world) :
  let w' := snd (download_youtube_videos_from_file e path ffmpeg w) in
  caught (new_events w w') = [] -> files w' ⊆ files w.
Proof.
  intros w'. subst w'. rewrite batch_run.
  destruct (open_file e path) as [file|x]; cbn [snd]; [|reflexivity].
  destruct (for_each_clean e ffmpeg (file_lines file) w)
    as (w' & evs & -> & Hlog & H).
  cbn [snd]. now rewrite (new_events_app _ _ _ Hlog).
Qed.

Lemma clean_batch_adds_no_file_witness :
  let e := sample_env 1 sample_clock
             ["https://example.com/one" +:+ nl; "nonsense" +:+ nl;
              "a https://example.com/two" +:+ nl] in
  let w := World {["notes.txt"]} 0 [] in
  files (snd (download_youtube_videos_from_file e "in.txt" "ffmpeg.exe" w))
  ⊆ files w.
Proof.
  intros e w.
  apply (clean_batch_adds_no_file e "in.txt" "ffmpeg.exe" w). reflexivity.
Defined.

(** ** The names of the files *)

Lemma str_mem_append (c : ascii) (a b : string) :
  str_mem c (a +:+ b) = str_mem c a || str_mem c b.
Proof.
  induction a as [|x a IH]; [reflexivity|].
  change (str_mem c (String x (a +:+ b)) = str_mem c (String x a) || str_mem c b).
  cbn [str_mem]. now rewrite IH, orb_assoc.
Qed.

Lemma str_mem_replaced (old new : ascii) (s : string) :
  Ascii.eqb old new = false -> str_mem old (replace_char old new s) = false.
Proof.
  intros Hne. unfold replace_char.
  induction s as [|x s IH]; [reflexivity|]. cbn [str_map str_mem]. rewrite IH.
  destruct (Ascii.eqb_spec x old) as [->|Hx].
  - now rewrite Hne.
  - apply not_eq_sym, Ascii.eqb_neq in Hx. now rewrite Hx.
Qed.

Lemma str_mem_replace_other (c old new : ascii) (s : string) :
  Ascii.eqb c new = false -> str_mem c s = false ->
  str_mem c (replace_char old new s) = false.
Proof.
  intros Hne. unfold replace_char.
  induction s as [|x s IH]; [reflexivity|]. cbn [str_map str_mem].
  intros [Hx Hs]%orb_false_iff. rewrite (IH Hs).
  destruct (Ascii.eqb x old); now rewrite ?Hne, ?Hx.
Qed.

Lemma sanitize_title_flat (t : string) : flat_name (sanitize_title t) = true.
Proof.
  unfold flat_name, sanitize_title.
  rewrite (str_mem_replaced "/" "_") by reflexivity.
  rewrite (str_mem_replace_other " " "/" "_"); [reflexivity..|].
  now apply str_mem_replaced.
Qed.

Lemma eqb_digit (c : ascii) (n : nat) :
  isdecimal c = false -> Ascii.eqb c (digit n) = false.
Proof.
  intros Hc. apply Ascii.eqb_neq. intros ->.
  now rewrite digit_isdecimal in Hc.
Qed.

Lemma strftime_flat (dt : datetime) : flat_name (strftime dt) = true.
Proof.
  unfold flat_name, strftime, pad4, pad2, str1.
  cbv [String.append str_mem]. rewrite !eqb_digit by reflexivity.
  reflexivity.
Qed.

Lemma flat_name_append (a b : string) :
  flat_name a = true -> flat_name b = true -> flat_name (a +:+ b) = true.
Proof.
  unfold flat_name. rewrite !str_mem_append, !andb_true_iff, !negb_true_iff.
  intros [-> ->] [-> ->]. auto.
Qed.

(** X15: the names the job gives its files hold no space and no slash,
    whatever the title of the video and the reading of the clock (lines
    87 to 91, 95 and 102): the output file and the two temporary files
    are files of the working directory. *)
Theorem job_file_names_are_flat (t : string) (dt : datetime) (ao : bool) :
  flat_name (output_filename_of (sanitize_title t) (strftime dt) ao) = true
  /\ flat_name (audio_filename_of (strftime dt)) = true
  /\ flat_name (video_filename_of (strftime dt)) = true.
Proof.
  pose proof (sanitize_title_flat t) as Ht.
  pose proof (strftime_flat dt) as Hd.
  unfold output_filename_of, audio_filename_of, video_filename_of.
  repeat split; try destruct ao; cbn [negb];
    repeat (apply flat_name_append; [first [assumption | reflexivity]|]);
    first [assumption | reflexivity].
Qed.
